(** * Language-detection clients: a shallow embedding

    The repository holds two command line scripts that send a line of
    text to a remote language-detection service and print the detected
    language:

    - [rest-client.py] builds the HTTPS request by hand
      (module [Rest] below);
    - [sdk-client.py] delegates to the vendor SDK (module [Sdk]).

    Both scripts are embedded function by function.  Python values that
    the scripts handle are modelled in module [Py]: text, exceptions,
    the values produced by [json.loads], and the few [str] methods that
    the scripts call.

    Conventions of the embedding.

    - Text is a [string]; one [ascii] stands for one code point in the
      range U+0000 to U+00FF.  On that range [str.strip], [str.lower],
      [repr] and UTF-8 encoding are modelled exactly as CPython defines
      them.
    - The process environment, as [os.getenv] sees it once
      [load_dotenv()] has run, is a finite map from names to values.
    - The remote service, the [json] parser and the SDK client are
      collaborators outside the repository: they are arguments of the
      model (records [Rest.runtime] and [Sdk.runtime]), indexed by the
      number of exchanges made so far.
    - Effects (standard input, standard output, the network, raised
      exceptions) are threaded through a state-and-exception monad.
      Exceptions deriving from [BaseException] only
      ([KeyboardInterrupt], [SystemExit]) are not modelled. *)

From Stdlib Require Import ZArith String Ascii List Bool Lia.
From stdpp Require Import gmap strings list pretty.

Local Open Scope string_scope.

(** ** Python values and built-ins *)

Module Py.

(** [str.isspace] for one code point below U+0100. *)
Definition isspace (c : ascii) : bool :=
  let n := N_of_ascii c in
  ((9 <=? n) && (n <=? 13) || (28 <=? n) && (n <=? 32)
   || (n =? 133) || (n =? 160))%N.

(** Strip from the left, resp. from the right, every character that
    satisfies [p]. *)
Fixpoint lstrip_with (p : ascii -> bool) (s : string) : string :=
  match s with
  | EmptyString => EmptyString
  | String c r => if p c then lstrip_with p r else s
  end.

Fixpoint rstrip_with (p : ascii -> bool) (s : string) : string :=
  match s with
  | EmptyString => EmptyString
  | String c r =>
      match rstrip_with p r with
      | EmptyString => if p c then EmptyString else String c EmptyString
      | r' => String c r'
      end
  end.

(** [s.strip()] *)
Definition strip (s : string) : string :=
  rstrip_with isspace (lstrip_with isspace s).

(** [s.rstrip(chars)] *)
Definition rstrip (chars : string) (s : string) : string :=
  rstrip_with (fun c => existsb (Ascii.eqb c) (list_ascii_of_string chars)) s.

(** [str.lower] for one code point below U+0100: the ASCII capitals and
    the Latin-1 capitals U+00C0 to U+00DE, the multiplication sign
    U+00D7 apart. *)
Definition lower_char (c : ascii) : ascii :=
  let n := N_of_ascii c in
  if ((65 <=? n) && (n <=? 90)
      || (192 <=? n) && (n <=? 222) && negb (n =? 215))%N
  then ascii_of_N (n + 32) else c.

(** [s.lower()] *)
Fixpoint lower (s : string) : string :=
  match s with
  | EmptyString => EmptyString
  | String c r => String (lower_char c) (lower r)
  end.

(** [s.startswith(prefix)] *)
Definition startswith (pre s : string) : bool := String.prefix pre s.

(** [s.replace(old, new)]: occurrences of [old] are replaced from left
    to right and do not overlap.  [skip] counts the characters of the
    occurrence being replaced that are still to be dropped. *)
Fixpoint replace_from (old new : string) (skip : nat) (s : string) : string :=
  match s with
  | EmptyString =>
      match old with EmptyString => new | _ => EmptyString end
  | String c r =>
      match skip with
      | S k => replace_from old new k r
      | O =>
          if String.prefix old s then
            match old with
            | EmptyString => new +:+ String c (replace_from old new 0 r)
            | String _ o => new +:+ replace_from old new (String.length o) r
            end
          else String c (replace_from old new 0 r)
      end
  end.

Definition replace (old new s : string) : string := replace_from old new 0 s.

(** [sub in s] *)
Fixpoint contains (sub s : string) : bool :=
  String.prefix sub s
  || match s with
     | EmptyString => false
     | String _ r => contains sub r
     end.

(** Exception classes the scripts raise, catch or can meet.  A subclass
    of a library class is tagged with that class ([HttpResponseError] is
    an [AzureError]); [OtherException] is any further subclass of
    [Exception]. *)
Inductive exn_class : Type :=
  | ConfigurationError | InputError | APIError | AzureError
  | JSONDecodeError | HTTPException
  | KeyError | IndexError | TypeError | AttributeError | EOFError
  | OtherException.

(** An exception: its class and [str(e)]. *)
Record exn : Type := Exn { exn_cls : exn_class; exn_str : string }.

(** [isinstance(e, http.client.HTTPException)], on the class of [e]. *)
Definition exn_class_is_http (c : exn_class) : bool :=
  match c with
  | HTTPException => true
  | _ => false
  end.

(** The outcome of a call: a value, or a raised exception. *)
Inductive result (A : Type) : Type :=
  | Ok (a : A)
  | Raise (e : exn).
Arguments Ok {A} a.
Arguments Raise {A} e.

(** Python values: what [json.loads] produces and what the request body
    is built from.  A dict is the list of its items in insertion order;
    a float is held by its [repr]. *)
#[warnings="-register-all"]
Inductive pyval : Type :=
  | PNone
  | PBool (b : bool)
  | PInt (z : Z)
  | PFloat (repr : string)
  | PStr (s : string)
  | PList (l : list pyval)
  | PDict (d : list (string * pyval)).

(** [str(z)] for an [int]. *)
Definition str_of_int (z : Z) : string := pretty z.

Definition hex_digit (n : N) : ascii :=
  if (n <? 10)%N then ascii_of_N (48 + n) else ascii_of_N (87 + n).

(** [c.isprintable()] for one code point below U+0100. *)
Definition isprintable (c : ascii) : bool :=
  let n := N_of_ascii c in
  negb ((n <? 32) || (127 <=? n) && (n <=? 160) || (n =? 173))%N.

(** One character of [repr(s)], inside quotes [q]. *)
Definition repr_char (q c : ascii) : string :=
  let n := N_of_ascii c in
  if Ascii.eqb c q || Ascii.eqb c "\" then String "\" (String c EmptyString)
  else if (n =? 9)%N then "\t"
  else if (n =? 10)%N then "\n"
  else if (n =? 13)%N then "\r"
  else if isprintable c then String c EmptyString
  else String "\" (String "x" (String (hex_digit (n / 16))
                                 (String (hex_digit (n mod 16)) EmptyString))).

Definition contains_char (c : ascii) (s : string) : bool :=
  existsb (Ascii.eqb c) (list_ascii_of_string s).

Definition squote : ascii := "'".
Definition dquote : ascii := "034".

(** [repr(s)] for a [str]: single quotes, unless the text holds a single
    quote and no double quote. *)
Definition repr_str (s : string) : string :=
  let q := if contains_char squote s && negb (contains_char dquote s)
           then dquote else squote in
  String q (String.concat "" (map (repr_char q) (list_ascii_of_string s)))
    +:+ String q EmptyString.

(** [repr(v)] *)
Fixpoint repr (v : pyval) : string :=
  match v with
  | PNone => "None"
  | PBool true => "True"
  | PBool false => "False"
  | PInt z => str_of_int z
  | PFloat r => r
  | PStr s => repr_str s
  | PList l => "[" +:+ String.concat ", " (map repr l) +:+ "]"
  | PDict d =>
      "{" +:+ String.concat ", "
                (map (fun kv => repr_str (fst kv) +:+ ": " +:+ repr (snd kv)) d)
          +:+ "}"
  end.

(** [str(v)] *)
Definition str (v : pyval) : string :=
  match v with
  | PStr s => s
  | _ => repr v
  end.

(** [s.encode('utf-8')] for code points below U+0100. *)
Fixpoint encode_utf8 (s : string) : list N :=
  match s with
  | EmptyString => []
  | String c r =>
      let n := N_of_ascii c in
      if (n <? 128)%N then n :: encode_utf8 r
      else (192 + n / 64)%N :: (128 + n mod 64)%N :: encode_utf8 r
  end.

(** The [UnicodeDecodeError] for byte [b] at position [pos]. *)
Definition decode_error (b : N) (pos : nat) (reason : string) : exn :=
  Exn OtherException
    ("'utf-8' codec can't decode byte 0x"
       +:+ String (hex_digit (b / 16)) (String (hex_digit (b mod 16)) EmptyString)
       +:+ " in position " +:+ str_of_int (Z.of_nat pos) +:+ ": " +:+ reason).

(** [bytes.decode("UTF-8")] for bytes (numbers below 256), read from
    position [pos] on.  The result is [None] where a lead byte 0xC4 to
    0xF4 is met before any error: such a byte starts a code point above
    U+00FF, which is outside the text this development models. *)
Fixpoint decode_utf8_from (pos : nat) (bytes : list N) : option (result string) :=
  match bytes with
  | [] => Some (Ok EmptyString)
  | b :: rest =>
      if (b <? 128)%N then
        match decode_utf8_from (S pos) rest with
        | Some (Ok s) => Some (Ok (String (ascii_of_N b) s))
        | other => other
        end
      else if ((b <? 194) || (244 <? b))%N then
        Some (Raise (decode_error b pos "invalid start byte"))
      else if (b <=? 195)%N then
        match rest with
        | [] => Some (Raise (decode_error b pos "unexpected end of data"))
        | c :: rest' =>
            if ((128 <=? c) && (c <=? 191))%N then
              match decode_utf8_from (S (S pos)) rest' with
              | Some (Ok s) =>
                  Some (Ok (String (ascii_of_N ((b - 192) * 64 + (c - 128))) s))
              | other => other
              end
            else Some (Raise (decode_error b pos "invalid continuation byte"))
        end
      else None
  end.

Definition decode_utf8 (bytes : list N) : option (result string) :=
  decode_utf8_from 0 bytes.

(** The name of a value's type, as error messages print it. *)
Definition type_name (v : pyval) : string :=
  match v with
  | PNone => "NoneType" | PBool _ => "bool" | PInt _ => "int"
  | PFloat _ => "float" | PStr _ => "str" | PList _ => "list"
  | PDict _ => "dict"
  end.

Fixpoint dict_get (d : list (string * pyval)) (k : string) : option pyval :=
  match d with
  | [] => None
  | (k', v) :: d' => if String.eqb k' k then Some v else dict_get d' k
  end.

(** [v[k]] for a [str] key [k] (message texts as CPython 3.11 words
    them). *)
Definition getitem (v : pyval) (k : string) : result pyval :=
  match v with
  | PDict d =>
      match dict_get d k with
      | Some x => Ok x
      | None => Raise (Exn KeyError (repr_str k))
      end
  | PList _ =>
      Raise (Exn TypeError "list indices must be integers or slices, not str")
  | PStr _ =>
      Raise (Exn TypeError "string indices must be integers, not 'str'")
  | _ =>
      Raise (Exn TypeError ("'" +:+ type_name v +:+ "' object is not subscriptable"))
  end.

(** The items [for x in v] goes through. *)
Definition iterate (v : pyval) : result (list pyval) :=
  match v with
  | PList l => Ok l
  | PDict d => Ok (map (fun kv => PStr (fst kv)) d)
  | PStr s => Ok (map (fun c => PStr (String c EmptyString)) (list_ascii_of_string s))
  | _ => Raise (Exn TypeError ("'" +:+ type_name v +:+ "' object is not iterable"))
  end.

End Py.

(** ** Effects: standard input and output, the network, exceptions *)

Module Eff.
Import Py.

(** The arguments of [conn.request] on a connection to [req_host]. *)
Record request : Type := Request {
  req_method : string;
  req_host : string;
  req_url : string;
  req_body : list N;
  req_headers : list (string * string)
}.

(** What the script reads off a response: [response.status] and
    [response.read().decode("UTF-8")]. *)
Record response : Type := Response {
  status : Z;
  data : string
}.

(** What a run does, in order.  [EvCall] records that the loop called
    the named function on a line; it writes nothing. *)
Inductive event : Type :=
  | EvPrompt (s : string)
  | EvPrint (s : string)
  | EvPrintJson (v : pyval)
  | EvCall (fn : string) (arg : string)
  | EvRequest (r : request)
  | EvSdkCall (documents : list string)
  | EvClose.

(** The state a run threads: the loop variable of [main], the lines
    still to be read from standard input, what happened so far, and the
    number of exchanges with the remote service so far. *)
Record state : Type := State {
  user_text : string;
  stdin : list string;
  trace : list event;
  exchanges : nat
}.

Definition M (A : Type) : Type := state -> state * result A.

Definition ret {A} (a : A) : M A := fun s => (s, Ok a).

Definition bind {A B} (m : M A) (k : A -> M B) : M B :=
  fun s =>
    match m s with
    | (s', Ok a) => k a s'
    | (s', Raise e) => (s', Raise e)
    end.

Definition raise {A} (e : exn) : M A := fun s => (s, Raise e).

(** A pure call that may raise. *)
Definition lift {A} (r : result A) : M A := fun s => (s, r).

(** [try: m except Exception as e: h e]; what [m] did before it raised
    stays done. *)
Definition try_except {A} (m : M A) (h : exn -> M A) : M A :=
  fun s =>
    match m s with
    | (s', Ok a) => (s', Ok a)
    | (s', Raise e) => h e s'
    end.

Definition emit (ev : event) : M unit :=
  fun s => (State (user_text s) (stdin s) (trace s ++ [ev])%list (exchanges s), Ok tt).

Definition set_user_text (t : string) : M unit :=
  fun s => (State t (stdin s) (trace s) (exchanges s), Ok tt).

Definition get_user_text : M string := fun s => (s, Ok (user_text s)).

(** [input(prompt)]: writes the prompt, then reads one line; at the end
    of standard input it raises [EOFError]. *)
Definition input (prompt : string) : M string :=
  fun s =>
    let tr := (trace s ++ [EvPrompt prompt])%list in
    match stdin s with
    | [] => (State (user_text s) [] tr (exchanges s),
             Raise (Exn EOFError "EOF when reading a line"))
    | line :: rest => (State (user_text s) rest tr (exchanges s), Ok line)
    end.

(** The next exchange with the remote service: the caller's event is
    recorded and [oracle] answers for exchange number [exchanges s]. *)
Definition exchange {A} (ev : event) (oracle : nat -> result A) : M A :=
  fun s =>
    (State (user_text s) (stdin s) (trace s ++ [ev])%list (S (exchanges s)),
     oracle (exchanges s)).

(** [for x in l: body x] *)
Fixpoint for_each {A} (l : list A) (body : A -> M unit) : M unit :=
  match l with
  | [] => ret tt
  | x :: l' => bind (body x) (fun _ => for_each l' body)
  end.

(** The state [s] after [evs] more events. *)
Definition after (s : state) (evs : list event) : state :=
  State (user_text s) (stdin s) (trace s ++ evs)%list (exchanges s).

(** The state [s] once the service has been called one more time. *)
Definition exchanged (s : state) : state :=
  State (user_text s) (stdin s) (trace s) (S (exchanges s)).

(** The events that reach the remote service. *)
Definition reaches_service (ev : event) : bool :=
  match ev with
  | EvRequest _ | EvSdkCall _ => true
  | _ => false
  end.

(** The event of [conn.close()]. *)
Definition is_close (ev : event) : bool :=
  match ev with
  | EvClose => true
  | _ => false
  end.

(** The state [s] once [line] has been read off standard input, leaving
    [rest], and assigned to the loop variable. *)
Definition consumed (s : state) (line : string) (rest : list string) : state :=
  State line rest (trace s) (exchanges s).

Declare Scope eff_scope.
Delimit Scope eff_scope with eff.
Notation "'let*' x ':=' m 'in' k" := (bind m (fun x => k))
  (at level 10, x name, m at level 100, k at level 200) : eff_scope.
Notation "m '>>' k" := (bind m (fun _ => k))
  (at level 90, right associativity) : eff_scope.

Definition newline : string := String "010" EmptyString.
Definition quoted (s : string) : string :=
  String dquote s +:+ String dquote EmptyString.

End Eff.

(** ** rest-client.py *)

Module Rest.
Import Py Eff.
Local Open Scope eff_scope.

(** The collaborators of [GetLanguage]: [http.client.HTTPSConnection]
    (which only parses its argument), one request-response exchange
    ([conn.request], [conn.getresponse], [response.read().decode]), and
    [json.loads]. *)
Record runtime : Type := Runtime {
  https_connection : string -> result unit;
  http_exchange : nat -> request -> result response;
  json_loads : string -> result pyval
}.

(** What [conn.getresponse()] hands over: the status, and the body as
    the bytes [response.read()] returns. *)
Record raw_response : Type := RawResponse {
  raw_status : Z;
  raw_body : list N
}.

(** What [GetLanguage] makes of it before it looks at the status:
    [data = response.read().decode("UTF-8")], which may raise.  This is
    the last step of the exchange that [http_exchange] stands for. *)
Definition read_response (r : raw_response) : option (result response) :=
  match decode_utf8 (raw_body r) with
  | Some (Ok d) => Some (Ok (Response (raw_status r) d))
  | Some (Raise e) => Some (Raise e)
  | None => None
  end.

(** [not v] for what [os.getenv] returns. *)
Definition py_not (v : option string) : bool :=
  match v with
  | None => true
  | Some s => String.eqb s ""
  end.

Definition validate_configuration (environ : gmap string string)
  : result (string * string) :=
  let endpoint := environ !! "AI_SERVICE_ENDPOINT" in
  let key := environ !! "AI_SERVICE_KEY" in
  if py_not endpoint || py_not key then
    Raise (Exn ConfigurationError
      "Missing required environment variables: AI_SERVICE_ENDPOINT and/or AI_SERVICE_KEY")
  else if negb (startswith "https://" (default "" endpoint)) then
    Raise (Exn ConfigurationError "AI_SERVICE_ENDPOINT must start with 'https://'")
  else Ok (default "" endpoint, default "" key).

Definition validate_text (text : string) : result unit :=
  if String.eqb (strip text) "" then
    Raise (Exn InputError "Text cannot be empty")
  else if (5000 <? String.length text)%nat then
    Raise (Exn InputError "Text length exceeds maximum of 5000 characters")
  else Ok tt.

Definition jsonBody (text : string) : pyval :=
  PDict [("documents", PList [PDict [("id", PInt 1); ("text", PStr text)]])].

Definition uri (endpoint : string) : string :=
  replace "https://" "" (rstrip "/" endpoint).

Definition headers (key : string) : list (string * string) :=
  [("Content-Type", "application/json"); ("Ocp-Apim-Subscription-Key", key)].

(** The request [GetLanguage] makes. *)
Definition language_request (endpoint key text : string) : request :=
  Request "POST" (uri endpoint) "/text/analytics/v3.1/languages?"
    (encode_utf8 (str (jsonBody text))) (headers key).

(** The state in which [GetLanguage] handles the response: the body has
    been echoed and the request made. *)
Definition sent (endpoint key text : string) (s : state) : state :=
  exchanged
    (after s [EvPrintJson (jsonBody text);
              EvRequest (language_request endpoint key text)]).

(** [print("\nLanguage:", v)] *)
Definition print_language (v : pyval) : M unit :=
  emit (EvPrint (newline +:+ "Language: " +:+ str v)).

(** [document["detectedLanguage"]["name"]] *)
Definition language_name (document : pyval) : result pyval :=
  match getitem document "detectedLanguage" with
  | Ok detected => getitem detected "name"
  | Raise e => Raise e
  end.

(** The body of [for document in results["documents"]]. *)
Definition print_document (document : pyval) : M unit :=
  let* name := lift (language_name document) in
  print_language name.

Definition GetLanguage (rt : runtime) (endpoint key text : string) : M pyval :=
  try_except
    (emit (EvPrintJson (jsonBody text)) >>
     lift (https_connection rt (uri endpoint)) >>
     let* response :=
       exchange (EvRequest (language_request endpoint key text))
         (fun n => http_exchange rt n (language_request endpoint key text)) in
     (if (status response =? 200)%Z then
        let* results := lift (json_loads rt (data response)) in
        emit (EvPrintJson results) >>
        let* documents := lift (getitem results "documents") in
        let* items := lift (iterate documents) in
        for_each items print_document
      else
        raise (Exn APIError
          ("API returned status " +:+ str_of_int (status response)
             +:+ ": " +:+ data response))) >>
     emit EvClose >>
     ret PNone)
    (fun ex =>
       match exn_cls ex with
       | JSONDecodeError =>
           raise (Exn APIError ("Failed to parse API response: " +:+ exn_str ex))
       | HTTPException =>
           raise (Exn APIError ("HTTP error occurred: " +:+ exn_str ex))
       | _ =>
           raise (Exn APIError ("Unexpected error during API call: " +:+ exn_str ex))
       end).

Definition prompt : string :=
  "Enter some text (" +:+ quoted "quit" +:+ " to stop)" +:+ newline.

(** The [try] suite of the loop body. *)
Definition loop_try (rt : runtime) (endpoint key : string) : M unit :=
  let* line := input prompt in
  set_user_text line >>
  let* userText := get_user_text in
  if negb (String.eqb (lower userText) "quit") then
    emit (EvCall "validate_text" userText) >>
    lift (validate_text userText) >>
    emit (EvCall "GetLanguage" userText) >>
    GetLanguage rt endpoint key userText >>
    ret tt
  else ret tt.

(** The [except] clauses of the loop body; each ends in [continue]. *)
Definition loop_except (e : exn) : M unit :=
  match exn_cls e with
  | InputError => emit (EvPrint ("Input error: " +:+ exn_str e))
  | APIError => emit (EvPrint ("API error: " +:+ exn_str e))
  | _ => emit (EvPrint ("Unexpected error: " +:+ exn_str e))
  end.

(** One pass through the body of the [while] loop. *)
Definition loop_body (rt : runtime) (endpoint key : string) : M unit :=
  try_except (loop_try rt endpoint key) loop_except.

(** The condition of the [while] loop. *)
Definition loop_cond (s : state) : bool :=
  negb (String.eqb (lower (user_text s)) "quit").

(** [while userText.lower() != 'quit': ...], for at most [fuel] tests of
    the condition; [None] when the fuel runs out first. *)
Fixpoint while_loop (rt : runtime) (endpoint key : string) (fuel : nat)
  : M (option unit) :=
  match fuel with
  | O => ret None
  | S fuel' =>
      let* userText := get_user_text in
      if negb (String.eqb (lower userText) "quit") then
        loop_body rt endpoint key >> while_loop rt endpoint key fuel'
      else ret (Some tt)
  end.

Definition main (rt : runtime) (environ : gmap string string) (fuel : nat)
  : M (option unit) :=
  try_except
    (let* cfg := lift (validate_configuration environ) in
     set_user_text "" >>
     while_loop rt (fst cfg) (snd cfg) fuel)
    (fun e =>
       match exn_cls e with
       | ConfigurationError =>
           emit (EvPrint ("Configuration error: " +:+ exn_str e)) >> raise e
       | _ =>
           emit (EvPrint ("Fatal error: " +:+ exn_str e)) >> raise e
       end).

End Rest.

(** ** sdk-client.py *)

Module Sdk.
Import Py Eff.
Local Open Scope eff_scope.

Record Config : Type := MkConfig {
  endpoint : string;
  key : string
}.

(** [not v] for what [os.getenv] returns. *)
Definition py_not (v : option string) : bool :=
  match v with
  | None => true
  | Some s => String.eqb s ""
  end.

(** [Config.from_env] *)
Definition from_env (environ : gmap string string) : result Config :=
  let endpoint := environ !! "AI_SERVICE_ENDPOINT" in
  let key := environ !! "AI_SERVICE_KEY" in
  if py_not endpoint || py_not key then
    Raise (Exn ConfigurationError
      "Missing required environment variables: AI_SERVICE_ENDPOINT and/or AI_SERVICE_KEY")
  else if negb (startswith "https://" (default "" endpoint)) then
    Raise (Exn ConfigurationError "AI_SERVICE_ENDPOINT must start with 'https://'")
  else Ok (MkConfig (default "" endpoint) (default "" key)).

Module TextValidator.

Definition MAX_TEXT_LENGTH : nat := 5000.

Definition validate (text : string) : result unit :=
  if String.eqb (strip text) "" then
    Raise (Exn InputError "Text cannot be empty")
  else if (MAX_TEXT_LENGTH <? String.length text)%nat then
    Raise (Exn InputError
      ("Text length exceeds maximum of "
         +:+ str_of_int (Z.of_nat MAX_TEXT_LENGTH) +:+ " characters"))
  else Ok tt.

End TextValidator.

(** The SDK's [DetectedLanguage]. *)
Record DetectedLanguage : Type := MkDetectedLanguage {
  name : string;
  iso6391_name : string
}.

(** One item of the list the SDK's [detect_language] returns: a
    [DetectLanguageResult], or a [DocumentError], whose
    [primary_language] cannot be read. *)
Inductive document_result : Type :=
  | DetectLanguageResult (primary_language : DetectedLanguage)
  | DocumentError (message : string).

(** The SDK's [TextAnalyticsClient], as constructed: the constructors of
    the client and of [AzureKeyCredential] store their arguments. *)
Record TextAnalyticsClient : Type := MkClient {
  client_endpoint : string;
  client_credential : string
}.

(** The collaborator of [detect_language]: one call of the SDK client's
    [detect_language]. *)
Record runtime : Type := Runtime {
  client_detect_language :
    nat -> TextAnalyticsClient -> list string -> result (list document_result)
}.

Record LanguageDetector : Type := MkLanguageDetector {
  credential : string;
  client : TextAnalyticsClient
}.

(** [LanguageDetector.__init__] *)
Definition init (config : Config) : LanguageDetector :=
  MkLanguageDetector (key config) (MkClient (endpoint config) (key config)).

(** [l[0]] *)
Definition first {A} (l : list A) : result A :=
  match l with
  | x :: _ => Ok x
  | [] => Raise (Exn IndexError "list index out of range")
  end.

(** [r.primary_language] *)
Definition primary_language (r : document_result) : result DetectedLanguage :=
  match r with
  | DetectLanguageResult p => Ok p
  | DocumentError msg => Raise (Exn AttributeError msg)
  end.

(** [LanguageDetector.detect_language] *)
Definition detect_language (rt : runtime) (self : LanguageDetector) (text : string)
  : M string :=
  try_except
    (let* results :=
       exchange (EvSdkCall [text])
         (fun n => client_detect_language rt n (client self) [text]) in
     let* detected_language := lift (first results) in
     let* primary := lift (primary_language detected_language) in
     ret (name primary))
    (fun ae =>
       match exn_cls ae with
       | AzureError =>
           raise (Exn AzureError ("Failed to detect language: " +:+ exn_str ae))
       | _ => raise ae
       end).

Definition prompt : string :=
  newline +:+ "Enter some text (" +:+ quoted "quit" +:+ " to stop)" +:+ newline.

(** The [try] suite of the loop body. *)
Definition loop_try (rt : runtime) (detector : LanguageDetector) : M unit :=
  let* line := input prompt in
  set_user_text line >>
  let* user_text := get_user_text in
  if negb (String.eqb (lower user_text) "quit") then
    emit (EvCall "TextValidator.validate" user_text) >>
    lift (TextValidator.validate user_text) >>
    emit (EvCall "detect_language" user_text) >>
    let* language := detect_language rt detector user_text in
    emit (EvPrint ("Language: " +:+ language))
  else ret tt.

(** The [except] clauses of the loop body; each ends in [continue]. *)
Definition loop_except (e : exn) : M unit :=
  match exn_cls e with
  | InputError => emit (EvPrint ("Input error: " +:+ exn_str e))
  | AzureError => emit (EvPrint ("Azure service error: " +:+ exn_str e))
  | _ => emit (EvPrint ("Unexpected error: " +:+ exn_str e))
  end.

(** One pass through the body of the [while] loop. *)
Definition loop_body (rt : runtime) (detector : LanguageDetector) : M unit :=
  try_except (loop_try rt detector) loop_except.

(** The condition of the [while] loop. *)
Definition loop_cond (s : state) : bool :=
  negb (String.eqb (lower (user_text s)) "quit").

(** [while user_text.lower() != 'quit': ...], for at most [fuel] tests
    of the condition; [None] when the fuel runs out first. *)
Fixpoint while_loop (rt : runtime) (detector : LanguageDetector) (fuel : nat)
  : M (option unit) :=
  match fuel with
  | O => ret None
  | S fuel' =>
      let* user_text := get_user_text in
      if negb (String.eqb (lower user_text) "quit") then
        loop_body rt detector >> while_loop rt detector fuel'
      else ret (Some tt)
  end.

Definition main (rt : runtime) (environ : gmap string string) (fuel : nat)
  : M (option unit) :=
  try_except
    (let* config := lift (from_env environ) in
     let detector := init config in
     set_user_text "" >>
     while_loop rt detector fuel)
    (fun e =>
       match exn_cls e with
       | ConfigurationError =>
           emit (EvPrint ("Configuration error: " +:+ exn_str e)) >> raise e
       | _ =>
           emit (EvPrint ("Fatal error: " +:+ exn_str e)) >> raise e
       end).

End Sdk.

(** ** Concrete inputs

    The environment, the requests and the replies of the repository's
    unit tests, and a few more inputs at which the scripts are run
    below. *)

Module Scenario.
Import Py Eff.

Definition environ_ok : gmap string string :=
  <["AI_SERVICE_ENDPOINT" := "https://test-endpoint.com"]>
    (<["AI_SERVICE_KEY" := "test-key"]> ∅).

(** Both variables are set; the key is set to the empty text. *)
Definition environ_empty_key : gmap string string :=
  <["AI_SERVICE_ENDPOINT" := "https://test-endpoint.com"]>
    (<["AI_SERVICE_KEY" := ""]> ∅).

(** The letter a followed by 5000 blanks: one character once
    stripped, 5001 characters as typed. *)
Definition padded_text : string :=
  String "a" (string_of_list_ascii (repeat " "%char 5000)).

Definition initial (lines : list string) : state := State "" lines [] 0.

(** The body [{"documents": [{"detectedLanguage": {"name": "English"}}]}]
    and the value [json.loads] reads from it. *)
Definition english_body : string :=
  "{" +:+ quoted "documents" +:+ ": [{" +:+ quoted "detectedLanguage"
      +:+ ": {" +:+ quoted "name" +:+ ": " +:+ quoted "English" +:+ "}}]}".

Definition english_value : pyval :=
  PDict [("documents",
          PList [PDict [("detectedLanguage", PDict [("name", PStr "English")])]])].

(** The body [{"documents": []}] and its value. *)
Definition no_documents_body : string :=
  "{" +:+ quoted "documents" +:+ ": []}".

Definition no_documents_value : pyval := PDict [("documents", PList [])].

(** [json.loads] on the two bodies above; any other text used below is
    not JSON. *)
Definition loads (text : string) : result pyval :=
  if String.eqb text english_body then Ok english_value
  else if String.eqb text no_documents_body then Ok no_documents_value
  else Raise (Exn JSONDecodeError "Expecting value: line 1 column 1 (char 0)").

(** A service that answers every request with the given response. *)
Definition answering (r : response) : Rest.runtime :=
  Rest.Runtime (fun _ => Ok tt) (fun _ _ => Ok r) loads.

Definition rt_english : Rest.runtime := answering (Response 200 english_body).
Definition rt_no_documents : Rest.runtime :=
  answering (Response 200 no_documents_body).
Definition rt_bad_request : Rest.runtime :=
  answering (Response 400 "Error message").

(** An SDK client that returns the given list on every call. *)
Definition returning (l : list Sdk.document_result) : Sdk.runtime :=
  Sdk.Runtime (fun _ _ _ => Ok l).

Definition sdk_english : Sdk.runtime :=
  returning [Sdk.DetectLanguageResult (Sdk.MkDetectedLanguage "English" "en")].
Definition sdk_empty : Sdk.runtime := returning [].

Definition detector_ok : Sdk.LanguageDetector :=
  Sdk.init (Sdk.MkConfig "https://test-endpoint.com" "test-key").

(** The body [{}] and a service that answers with it. *)
Definition rt_empty_object : Rest.runtime :=
  Rest.Runtime (fun _ => Ok tt) (fun _ _ => Ok (Response 200 "{}"))
    (fun text =>
       if String.eqb text "{}" then Ok (PDict [])
       else Raise (Exn JSONDecodeError "Expecting value: line 1 column 1 (char 0)")).

(** The body [{"documents": [{"detectedLanguage": {"name": "English"}}, {}]}],
    its value, and a service that answers with it. *)
Definition second_document_empty_body : string :=
  "{" +:+ quoted "documents" +:+ ": [{" +:+ quoted "detectedLanguage"
      +:+ ": {" +:+ quoted "name" +:+ ": " +:+ quoted "English" +:+ "}}, {}]}".

Definition second_document_empty_value : pyval :=
  PDict [("documents",
          PList [PDict [("detectedLanguage", PDict [("name", PStr "English")])];
                 PDict []])].

Definition rt_second_document_empty : Rest.runtime :=
  Rest.Runtime (fun _ => Ok tt)
    (fun _ _ => Ok (Response 200 second_document_empty_body))
    (fun text =>
       if String.eqb text second_document_empty_body
       then Ok second_document_empty_value
       else Raise (Exn JSONDecodeError "Expecting value: line 1 column 1 (char 0)")).

(** A service that drops every connection. *)
Definition rt_disconnecting : Rest.runtime :=
  Rest.Runtime (fun _ => Ok tt)
    (fun _ _ => Raise (Exn HTTPException
                         "Remote end closed connection without response"))
    loads.

(** A response with status 400 whose body is the one byte 0xFF, which
    is not UTF-8; the error its decoding raises; and a service that
    answers with it. *)
Definition undecodable : Rest.raw_response := Rest.RawResponse 400 [255%N].

Definition undecodable_error : exn :=
  Exn OtherException
    "'utf-8' codec can't decode byte 0xff in position 0: invalid start byte".

Definition rt_undecodable : Rest.runtime :=
  Rest.Runtime (fun _ => Ok tt) (fun _ _ => Raise undecodable_error) loads.

End Scenario.

(** ** What the specification says, where it is compared with the code *)

Module Spec.
Import Py Eff.

(** [sub] occurs in [s]. *)
Definition occurs_in (sub s : string) : Prop :=
  exists pre post, s = pre +:+ sub +:+ post.

(** The request body as the specification words it:
    [{"documents":[{"id":"1","text":"<input>"}]}]. *)
Definition body_value (text : string) : pyval :=
  PDict [("documents", PList [PDict [("id", PStr "1"); ("text", PStr text)]])].

Definition body_text (text : string) : string :=
  "{" +:+ quoted "documents" +:+ ":[{" +:+ quoted "id" +:+ ":" +:+ quoted "1"
      +:+ "," +:+ quoted "text" +:+ ":" +:+ quoted text +:+ "}]}".

(** The sentinel test as the specification words it: the trimmed,
    case-insensitive value equals the word quit. *)
Definition is_sentinel (line : string) : bool :=
  String.eqb (lower (strip line)) "quit".

(** One pass of a loop recovers from the exception [e] that its [try]
    suite raised in state [s1]: the pass prints [e] after [prefix] and
    ends normally, the condition of the loop still holds, so the loop
    goes through its body again, and that next pass starts by writing
    the prompt. *)
Definition recovers (cond : state -> bool) (body : M unit)
    (loop : nat -> M (option unit)) (prompt prefix : string)
    (s s1 : state) (e : exn) : Prop :=
  body s = (after s1 [EvPrint (prefix +:+ exn_str e)], Ok tt)
  /\ cond (after s1 [EvPrint (prefix +:+ exn_str e)]) = true
  /\ (forall fuel,
        loop (S (S fuel)) s
        = bind body (fun _ => loop fuel) (after s1 [EvPrint (prefix +:+ exn_str e)]))
  /\ exists evs,
       trace (fst (body (after s1 [EvPrint (prefix +:+ exn_str e)])))
       = (trace s1 ++ EvPrint (prefix +:+ exn_str e) :: EvPrompt prompt :: evs)%list.

End Spec.

(** The two errors of the configuration loaders. *)
Definition missing_variables : Py.exn :=
  Py.Exn Py.ConfigurationError
    "Missing required environment variables: AI_SERVICE_ENDPOINT and/or AI_SERVICE_KEY".

Definition insecure_endpoint : Py.exn :=
  Py.Exn Py.ConfigurationError "AI_SERVICE_ENDPOINT must start with 'https://'".

(** * Properties *)

Import Py Eff.

(** ** Built-ins *)

Lemma max_length_message :
  "Text length exceeds maximum of "
    +:+ str_of_int (Z.of_nat Sdk.TextValidator.MAX_TEXT_LENGTH) +:+ " characters"
  = "Text length exceeds maximum of 5000 characters".
Proof. vm_compute. reflexivity. Qed.

(** The two validators are the same function. *)
Lemma validate_variants_agree text :
  Sdk.TextValidator.validate text = Rest.validate_text text.
Proof.
  unfold Sdk.TextValidator.validate, Rest.validate_text.
  rewrite max_length_message. reflexivity.
Qed.

(** The two loaders read the environment the same way. *)
Lemma from_env_validate_configuration environ :
  Sdk.from_env environ =
  match Rest.validate_configuration environ with
  | Ok (e, k) => Ok (Sdk.MkConfig e k)
  | Raise x => Raise x
  end.
Proof.
  unfold Sdk.from_env, Rest.validate_configuration.
  destruct (environ !! "AI_SERVICE_ENDPOINT") as [e|];
    destruct (environ !! "AI_SERVICE_KEY") as [k|]; simpl;
    repeat match goal with |- context [if ?b then _ else _] => destruct b end;
    reflexivity.
Qed.

(** ** Input validation *)

Lemma validate_text_ok text :
  strip text <> "" -> String.length text <= 5000 ->
  Rest.validate_text text = Ok tt.
Proof.
  intros Hne Hlen. unfold Rest.validate_text.
  destruct (String.eqb_spec (strip text) "") as [E|_]; [contradiction|].
  destruct (Nat.ltb_spec 5000 (String.length text)) as [L|_]; [lia|reflexivity].
Qed.

Lemma validate_text_empty text :
  strip text = "" ->
  Rest.validate_text text = Raise (Exn InputError "Text cannot be empty").
Proof.
  intros E. unfold Rest.validate_text. rewrite E. reflexivity.
Qed.

Lemma validate_text_too_long text :
  5000 < String.length text ->
  exists msg, Rest.validate_text text = Raise (Exn InputError msg).
Proof.
  intros L. unfold Rest.validate_text.
  destruct (String.eqb (strip text) ""); [eauto|].
  destruct (Nat.ltb_spec 5000 (String.length text)) as [_|L']; [eauto|lia].
Qed.

(** Whatever the validator raises is an [InputError]. *)
Lemma validate_text_raises text e :
  Rest.validate_text text = Raise e -> exn_cls e = InputError.
Proof.
  unfold Rest.validate_text.
  destruct (String.eqb (strip text) "").
  - intros [= <-]. reflexivity.
  - destruct (5000 <? String.length text)%nat.
    + intros [= <-]. reflexivity.
    + discriminate.
Qed.

(** C1, as stated, fails: the text made of the letter a and 5000
    blanks has a non-empty trimmed form of one character, and both
    validators reject it, because they measure the text as typed. *)
Lemma validate_trimmed_length_counterexample :
  strip Scenario.padded_text = "a"
  /\ String.length (strip Scenario.padded_text) <= 5000
  /\ Rest.validate_text Scenario.padded_text
     = Raise (Exn InputError "Text length exceeds maximum of 5000 characters")
  /\ Sdk.TextValidator.validate Scenario.padded_text
     = Raise (Exn InputError "Text length exceeds maximum of 5000 characters")
  /\ ~ (strip Scenario.padded_text <> ""
        /\ String.length (strip Scenario.padded_text) <= 5000 ->
        Rest.validate_text Scenario.padded_text = Ok tt).
Proof.
  assert (Hs : strip Scenario.padded_text = "a") by (vm_compute; reflexivity).
  assert (Hv : Rest.validate_text Scenario.padded_text
               = Raise (Exn InputError "Text length exceeds maximum of 5000 characters"))
    by (vm_compute; reflexivity).
  split; [|split; [|split; [|split]]].
  - exact Hs.
  - rewrite Hs. simpl. lia.
  - exact Hv.
  - etransitivity; [apply validate_variants_agree | exact Hv].
  - intros H. rewrite Hv in H.
    assert (Habs : @Raise unit (Exn InputError "Text length exceeds maximum of 5000 characters") = Ok tt).
    { apply H. rewrite Hs. split; [discriminate | simpl; lia]. }
    discriminate Habs.
Qed.

(** C1, amended: a text whose trimmed form is non-empty and whose
    length as typed is at most 5000 is accepted by both validators; a
    text that is empty once trimmed, or whose length as typed exceeds
    5000, is rejected by both with an [InputError]. *)
Theorem validate_accepts_and_rejects (text : string) :
  (strip text <> "" /\ String.length text <= 5000 ->
     Rest.validate_text text = Ok tt
     /\ Sdk.TextValidator.validate text = Ok tt)
  /\ (strip text = "" \/ 5000 < String.length text ->
     exists msg,
       Rest.validate_text text = Raise (Exn InputError msg)
       /\ Sdk.TextValidator.validate text = Raise (Exn InputError msg)).
Proof.
  split.
  - intros [Hne Hlen].
    split; [|etransitivity; [apply validate_variants_agree|]];
      apply validate_text_ok; assumption.
  - intros [E|L].
    + exists "Text cannot be empty".
      split; [|etransitivity; [apply validate_variants_agree|]];
        apply validate_text_empty; assumption.
    + destruct (validate_text_too_long text L) as [msg Hmsg].
      exists msg.
      split; [|etransitivity; [apply validate_variants_agree|]]; assumption.
Qed.

(** The amended C1 at the text Hello and at a line of blanks. *)
Lemma validate_accepts_and_rejects_witness :
  (Rest.validate_text "Hello" = Ok tt
   /\ Sdk.TextValidator.validate "Hello" = Ok tt)
  /\ (exists msg,
        Rest.validate_text "   " = Raise (Exn InputError msg)
        /\ Sdk.TextValidator.validate "   " = Raise (Exn InputError msg)).
Proof.
  split.
  - apply (proj1 (validate_accepts_and_rejects "Hello")).
    split; [vm_compute; discriminate | simpl; lia].
  - apply (proj2 (validate_accepts_and_rejects "   ")).
    left. vm_compute. reflexivity.
Defined.

(** ** Configuration loading *)

(** The loader of rest-client.py, case by case. *)
Lemma validate_configuration_cases environ :
  Rest.validate_configuration environ =
  match environ !! "AI_SERVICE_ENDPOINT", environ !! "AI_SERVICE_KEY" with
  | Some e, Some k =>
      if String.eqb e "" || String.eqb k "" then Raise missing_variables
      else if startswith "https://" e then Ok (e, k)
      else Raise insecure_endpoint
  | _, _ => Raise missing_variables
  end.
Proof.
  unfold Rest.validate_configuration.
  destruct (environ !! "AI_SERVICE_ENDPOINT") as [e|];
    destruct (environ !! "AI_SERVICE_KEY") as [k|]; simpl;
    rewrite ?orb_true_r; try reflexivity.
  destruct (String.eqb e ""), (String.eqb k ""); simpl; try reflexivity.
  destruct (startswith "https://" e); reflexivity.
Qed.

Lemma validate_configuration_raises environ x :
  Rest.validate_configuration environ = Raise x -> exn_cls x = ConfigurationError.
Proof.
  rewrite validate_configuration_cases.
  destruct (environ !! "AI_SERVICE_ENDPOINT") as [e|];
    destruct (environ !! "AI_SERVICE_KEY") as [k|];
    try (intros [= <-]; reflexivity).
  destruct (String.eqb e "" || String.eqb k "");
    [intros [= <-]; reflexivity|].
  destruct (startswith "https://" e); [discriminate | intros [= <-]; reflexivity].
Qed.

Lemma from_env_raises environ x :
  Sdk.from_env environ = Raise x -> exn_cls x = ConfigurationError.
Proof.
  rewrite from_env_validate_configuration.
  destruct (Rest.validate_configuration environ) as [[e k]|y] eqn:H;
    [discriminate|].
  intros [= <-]. exact (validate_configuration_raises _ _ H).
Qed.

(** C2, as stated, fails: with both variables present and a secure
    endpoint, the loaders still raise when the key is set to the empty
    text. *)
Lemma load_empty_key_counterexample :
  Scenario.environ_empty_key !! "AI_SERVICE_ENDPOINT"
    = Some "https://test-endpoint.com"
  /\ Scenario.environ_empty_key !! "AI_SERVICE_KEY" = Some ""
  /\ startswith "https://" "https://test-endpoint.com" = true
  /\ Rest.validate_configuration Scenario.environ_empty_key
     = Raise missing_variables
  /\ Sdk.from_env Scenario.environ_empty_key = Raise missing_variables.
Proof. vm_compute. repeat split; reflexivity. Qed.

(** C2, amended: both loaders raise [ConfigurationError] when either
    variable is absent or set to the empty text, and when the endpoint
    does not start with https://; in every other case they succeed with
    exactly the two values of the environment; what they return has an
    endpoint that starts with https:// and a key that is not empty. *)
Theorem load_configuration_spec (environ : gmap string string) :
  ((environ !! "AI_SERVICE_ENDPOINT" = None
    \/ environ !! "AI_SERVICE_ENDPOINT" = Some ""
    \/ environ !! "AI_SERVICE_KEY" = None
    \/ environ !! "AI_SERVICE_KEY" = Some "") ->
   Rest.validate_configuration environ = Raise missing_variables
   /\ Sdk.from_env environ = Raise missing_variables)
  /\ (forall e, environ !! "AI_SERVICE_ENDPOINT" = Some e ->
        startswith "https://" e = false ->
        exists msg,
          Rest.validate_configuration environ = Raise (Exn ConfigurationError msg)
          /\ Sdk.from_env environ = Raise (Exn ConfigurationError msg))
  /\ (forall e k,
        environ !! "AI_SERVICE_ENDPOINT" = Some e ->
        environ !! "AI_SERVICE_KEY" = Some k ->
        startswith "https://" e = true -> k <> "" ->
        Rest.validate_configuration environ = Ok (e, k)
        /\ Sdk.from_env environ = Ok (Sdk.MkConfig e k))
  /\ (forall e k,
        Rest.validate_configuration environ = Ok (e, k)
        \/ Sdk.from_env environ = Ok (Sdk.MkConfig e k) ->
        environ !! "AI_SERVICE_ENDPOINT" = Some e
        /\ environ !! "AI_SERVICE_KEY" = Some k
        /\ startswith "https://" e = true /\ e <> "" /\ k <> "").
Proof.
  rewrite from_env_validate_configuration, validate_configuration_cases.
  destruct (environ !! "AI_SERVICE_ENDPOINT") as [e0|];
    destruct (environ !! "AI_SERVICE_KEY") as [k0|].
  2-4: (split; [auto|]; split; [intros; eexists; split; reflexivity|];
        split; [intros; discriminate|]; intros e k [H|H]; discriminate H).
  destruct (String.eqb_spec e0 "") as [He|He];
    destruct (String.eqb_spec k0 "") as [Hk|Hk]; simpl.
  1-3: (split; [auto|]; split; [intros; eexists; split; reflexivity|];
        split; [intros e k [= <-] [= <-] Hp Hne;
                  first [contradiction | subst; discriminate Hp]|];
        intros e k [H|H]; discriminate H).
  destruct (startswith "https://" e0) eqn:Hp.
  - split; [intros [H|[[= H]|[H|[= H]]]]; congruence|].
    split; [intros e [= <-] H; congruence|].
    split; [intros e k [= <-] [= <-] _ _; auto|].
    intros e k [[= <- <-]|[= <- <-]]; auto.
  - split; [intros [H|[[= H]|[H|[= H]]]]; congruence|].
    split; [intros e [= <-] _; eexists; split; reflexivity|].
    split; [intros e k [= <-] [= <-] H; congruence|].
    intros e k [H|H]; discriminate H.
Qed.

(** The amended C2 at the environment of the unit tests. *)
Lemma load_configuration_spec_witness :
  Rest.validate_configuration Scenario.environ_ok
    = Ok ("https://test-endpoint.com", "test-key")
  /\ Sdk.from_env Scenario.environ_ok
    = Ok (Sdk.MkConfig "https://test-endpoint.com" "test-key").
Proof.
  apply (proj1 (proj2 (proj2 (load_configuration_spec Scenario.environ_ok)))).
  - vm_compute. reflexivity.
  - vm_compute. reflexivity.
  - vm_compute. reflexivity.
  - discriminate.
Defined.

(** C9: a variable set to the empty text is treated exactly like a
    missing one: either way both loaders raise the same
    [ConfigurationError], whatever the rest of the environment. *)
Theorem empty_value_is_missing (environ : gmap string string) (name : string) :
  name = "AI_SERVICE_ENDPOINT" \/ name = "AI_SERVICE_KEY" ->
  Rest.validate_configuration (<[name := ""]> environ) = Raise missing_variables
  /\ Rest.validate_configuration (delete name environ) = Raise missing_variables
  /\ Sdk.from_env (<[name := ""]> environ) = Raise missing_variables
  /\ Sdk.from_env (delete name environ) = Raise missing_variables
  /\ exn_cls missing_variables = ConfigurationError.
Proof.
  intros Hname.
  rewrite !from_env_validate_configuration, !validate_configuration_cases.
  destruct Hname as [-> | ->].
  - rewrite lookup_insert_eq, lookup_delete_eq. simpl.
    destruct (<["AI_SERVICE_ENDPOINT" := ""]> environ !! "AI_SERVICE_KEY");
      repeat split; reflexivity.
  - rewrite (lookup_insert_eq environ "AI_SERVICE_KEY"),
      (lookup_delete_eq environ "AI_SERVICE_KEY").
    destruct (<["AI_SERVICE_KEY" := ""]> environ !! "AI_SERVICE_ENDPOINT") as [e|];
      destruct (delete "AI_SERVICE_KEY" environ !! "AI_SERVICE_ENDPOINT");
      simpl; rewrite ?orb_true_r; repeat split; reflexivity.
Qed.

(** C9 at the environment of the unit tests, its key set to the empty
    text. *)
Lemma empty_value_is_missing_witness :
  Rest.validate_configuration (<["AI_SERVICE_KEY" := ""]> Scenario.environ_ok)
    = Raise missing_variables
  /\ Sdk.from_env (<["AI_SERVICE_KEY" := ""]> Scenario.environ_ok)
    = Raise missing_variables.
Proof.
  destruct (empty_value_is_missing Scenario.environ_ok "AI_SERVICE_KEY"
              (or_intror eq_refl)) as (H1 & _ & H3 & _).
  split; assumption.
Defined.

(** ** The monad of effects *)

Lemma append_cons c s t : String c s +:+ t = String c (s +:+ t).
Proof. reflexivity. Qed.

Lemma append_assoc s t u : (s +:+ t) +:+ u = s +:+ (t +:+ u).
Proof.
  induction s as [|c s IH]; [reflexivity|].
  rewrite !append_cons, IH. reflexivity.
Qed.

Lemma append_nil_r s : s +:+ "" = s.
Proof.
  induction s as [|c s IH]; [reflexivity|].
  rewrite append_cons, IH. reflexivity.
Qed.

Lemma occurs_in_middle pre sub post : Spec.occurs_in sub (pre +:+ sub +:+ post).
Proof. exists pre, post. reflexivity. Qed.

Lemma occurs_in_end pre sub : Spec.occurs_in sub (pre +:+ sub).
Proof. exists pre, "". rewrite append_nil_r. reflexivity. Qed.

Lemma occurs_in_append pre sub s :
  Spec.occurs_in sub s -> Spec.occurs_in sub (pre +:+ s).
Proof.
  intros (a & b & ->). exists (pre +:+ a), b.
  rewrite append_assoc. reflexivity.
Qed.

Lemma bind_ok {A B} (m : M A) (k : A -> M B) s s' a :
  m s = (s', Ok a) -> bind m k s = k a s'.
Proof. intros H. unfold bind. rewrite H. reflexivity. Qed.

Lemma bind_raise {A B} (m : M A) (k : A -> M B) s s' e :
  m s = (s', Raise e) -> bind m k s = (s', Raise e).
Proof. intros H. unfold bind. rewrite H. reflexivity. Qed.

Lemma try_ok {A} (m : M A) h s s' a :
  m s = (s', Ok a) -> try_except m h s = (s', Ok a).
Proof. intros H. unfold try_except. rewrite H. reflexivity. Qed.

Lemma try_raise {A} (m : M A) h s s' e :
  m s = (s', Raise e) -> try_except m h s = h e s'.
Proof. intros H. unfold try_except. rewrite H. reflexivity. Qed.

Lemma after_nil s : after s [] = s.
Proof. destruct s. unfold after. simpl. rewrite app_nil_r. reflexivity. Qed.

Lemma after_after s evs evs' : after (after s evs) evs' = after s (evs ++ evs')%list.
Proof. unfold after. simpl. rewrite app_assoc. reflexivity. Qed.

Lemma emit_after ev s : emit ev s = (after s [ev], Ok tt).
Proof. reflexivity. Qed.

Lemma exchange_after {A} ev (oracle : nat -> result A) s :
  exchange ev oracle s = (exchanged (after s [ev]), oracle (exchanges s)).
Proof. reflexivity. Qed.

Lemma after_exchanged s evs :
  after (exchanged s) evs = exchanged (after s evs).
Proof. reflexivity. Qed.

(** ** The raw-HTTP client *)

Section GetLanguage.
Variable rt : Rest.runtime.
Variables endpoint key text : string.

Abbreviation request := (Rest.language_request endpoint key text).
Abbreviation sent := (Rest.sent endpoint key text).

(** Every document of the list carries a language name: the names are
    printed in order. *)
Lemma for_each_print_document docs names s :
  Forall2 (fun doc nm => Rest.language_name doc = Ok nm) docs names ->
  for_each docs Rest.print_document s
  = (after s (map (fun nm => EvPrint (newline +:+ "Language: " +:+ str nm)) names),
     Ok tt).
Proof.
  intros H. revert s. induction H as [|doc nm docs names Hd _ IH]; intros s.
  - simpl. rewrite after_nil. reflexivity.
  - simpl for_each. unfold Rest.print_document at 1.
    unfold bind at 1 2, lift, Rest.print_language. rewrite Hd.
    rewrite emit_after, IH, after_after. reflexivity.
Qed.

(** Whatever the items, the loop over them only prints. *)
Lemma for_each_print_document_extends docs s :
  exists evs r,
    for_each docs Rest.print_document s = (after s evs, r)
    /\ Forall (fun ev => exists t, ev = EvPrint t) evs.
Proof.
  revert s. induction docs as [|doc docs IH]; intros s.
  - exists [], (Ok tt). simpl. rewrite after_nil. split; [reflexivity|constructor].
  - simpl for_each. unfold Rest.print_document at 1.
    unfold bind at 1 2, lift, Rest.print_language.
    destruct (Rest.language_name doc) as [nm|e].
    + rewrite emit_after.
      destruct (IH (after s [EvPrint (newline +:+ "Language: " +:+ str nm)]))
        as (evs & r & -> & Hevs).
      rewrite after_after. eexists _, r. split; [reflexivity|].
      constructor; [eauto | exact Hevs].
    + exists [], (Raise e). rewrite after_nil. split; [reflexivity|constructor].
Qed.

(** The [except] clauses of [GetLanguage] turn every exception into an
    [APIError]. *)
Lemma GetLanguage_wraps (m : M pyval) s s' e :
  m s = (s', Raise e) ->
  exists msg,
    try_except m
      (fun ex =>
         match exn_cls ex with
         | JSONDecodeError =>
             raise (Exn APIError ("Failed to parse API response: " +:+ exn_str ex))
         | HTTPException =>
             raise (Exn APIError ("HTTP error occurred: " +:+ exn_str ex))
         | _ =>
             raise (Exn APIError ("Unexpected error during API call: " +:+ exn_str ex))
         end) s
    = (s', Raise (Exn APIError msg)).
Proof.
  intros H. rewrite (try_raise _ _ _ _ _ H).
  destruct (exn_cls e); eexists; reflexivity.
Qed.

(** [GetLanguage] up to the response. *)
Lemma GetLanguage_exchange s resp (k : response -> M pyval) :
  Rest.https_connection rt (Rest.uri endpoint) = Ok tt ->
  Rest.http_exchange rt (exchanges s) request = Ok resp ->
  bind (emit (EvPrintJson (Rest.jsonBody text)))
    (fun _ => bind (lift (Rest.https_connection rt (Rest.uri endpoint)))
      (fun _ => bind (exchange (EvRequest request)
                        (fun n => Rest.http_exchange rt n request)) k)) s
  = k resp (sent s).
Proof.
  intros Hc Hx. unfold bind at 1. rewrite emit_after.
  unfold bind at 1, lift. rewrite Hc.
  unfold bind at 1. rewrite exchange_after. cbn [exchanges after].
  rewrite Hx. unfold Rest.sent. rewrite after_after. reflexivity.
Qed.

(** The 200 branch of [GetLanguage], up to the loop over the
    documents. *)
Lemma GetLanguage_documents s1 resp results docs :
  Rest.json_loads rt (data resp) = Ok results ->
  getitem results "documents" = Ok (PList docs) ->
  bind (lift (Rest.json_loads rt (data resp)))
    (fun results0 =>
       bind (emit (EvPrintJson results0))
         (fun _ =>
            bind (lift (getitem results0 "documents"))
              (fun documents =>
                 bind (lift (iterate documents))
                   (fun items => for_each items Rest.print_document)))) s1
  = for_each docs Rest.print_document (after s1 [EvPrintJson results]).
Proof.
  intros Hj Hd. unfold bind at 1, lift. rewrite Hj.
  unfold bind at 1. rewrite emit_after.
  unfold bind at 1. rewrite Hd.
  unfold bind at 1. reflexivity.
Qed.

(** A 200 response whose documents all carry a language name: every
    name is printed, in order, the connection is closed and [None] is
    returned. *)
Lemma GetLanguage_success s resp results docs names :
  Rest.https_connection rt (Rest.uri endpoint) = Ok tt ->
  Rest.http_exchange rt (exchanges s) request = Ok resp ->
  status resp = 200%Z ->
  Rest.json_loads rt (data resp) = Ok results ->
  getitem results "documents" = Ok (PList docs) ->
  Forall2 (fun doc nm => Rest.language_name doc = Ok nm) docs names ->
  Rest.GetLanguage rt endpoint key text s
  = (after (sent s)
       (EvPrintJson results
          :: map (fun nm => EvPrint (newline +:+ "Language: " +:+ str nm)) names
          ++ [EvClose]),
     Ok PNone).
Proof.
  intros Hc Hx Hst Hj Hd Hn. unfold Rest.GetLanguage. apply try_ok.
  rewrite (GetLanguage_exchange s resp _ Hc Hx). cbv beta.
  rewrite Hst. cbn [Z.eqb Pos.eqb].
  unfold bind at 1. rewrite (GetLanguage_documents _ _ _ _ Hj Hd).
  rewrite (for_each_print_document _ _ _ Hn).
  unfold bind at 1. rewrite emit_after. unfold ret.
  rewrite !after_after. reflexivity.
Qed.

(** A 200 response whose first document carries the language name
    [nm]: the name is printed; [GetLanguage] then returns [None] or
    raises an [APIError], as the other documents make it. *)
Lemma GetLanguage_first_document s resp results doc docs nm :
  Rest.https_connection rt (Rest.uri endpoint) = Ok tt ->
  Rest.http_exchange rt (exchanges s) request = Ok resp ->
  status resp = 200%Z ->
  Rest.json_loads rt (data resp) = Ok results ->
  getitem results "documents" = Ok (PList (doc :: docs)) ->
  Rest.language_name doc = Ok nm ->
  exists evs r,
    Rest.GetLanguage rt endpoint key text s
    = (after (sent s)
         (EvPrintJson results
            :: EvPrint (newline +:+ "Language: " +:+ str nm) :: evs), r)
    /\ (r = Ok PNone \/ exists msg, r = Raise (Exn APIError msg)).
Proof.
  intros Hc Hx Hst Hj Hd Hn.
  pose (s1 := after (sent s)
                [EvPrintJson results; EvPrint (newline +:+ "Language: " +:+ str nm)]).
  destruct (for_each_print_document_extends docs s1) as (evs & r & Hr & _).
  assert (Hbody :
    for_each (doc :: docs) Rest.print_document (after (sent s) [EvPrintJson results])
    = (after s1 evs, r)).
  { simpl for_each. unfold Rest.print_document at 1.
    unfold bind at 1 2, lift, Rest.print_language. rewrite Hn.
    rewrite emit_after, after_after. exact Hr. }
  unfold s1 in Hbody. rewrite after_after in Hbody.
  unfold Rest.GetLanguage. destruct r as [[]|e].
  - exists (evs ++ [EvClose])%list, (Ok PNone). split; [|left; reflexivity].
    apply try_ok.
    rewrite (GetLanguage_exchange s resp _ Hc Hx). cbv beta.
    rewrite Hst. cbn [Z.eqb Pos.eqb].
    unfold bind at 1. rewrite (GetLanguage_documents _ _ _ _ Hj Hd), Hbody.
    unfold bind at 1. rewrite emit_after. unfold ret.
    rewrite after_after. reflexivity.
  - match goal with
    | |- context [try_except ?m ?h] =>
        assert (Hm : m s = (after (sent s)
                 ([EvPrintJson results; EvPrint (newline +:+ "Language: " +:+ str nm)]
                    ++ evs), Raise e))
    end.
    { rewrite (GetLanguage_exchange s resp _ Hc Hx). cbv beta.
      rewrite Hst. cbn [Z.eqb Pos.eqb].
      unfold bind at 1. rewrite (GetLanguage_documents _ _ _ _ Hj Hd), Hbody.
      reflexivity. }
    destruct (GetLanguage_wraps _ _ _ _ Hm) as [msg Hw].
    exists evs, (Raise (Exn APIError msg)). split; [exact Hw | right; eauto].
Qed.

(** A response with a status other than 200: an [APIError] whose text
    holds the status and the body. *)
Lemma GetLanguage_failure s resp :
  Rest.https_connection rt (Rest.uri endpoint) = Ok tt ->
  Rest.http_exchange rt (exchanges s) request = Ok resp ->
  status resp <> 200%Z ->
  Rest.GetLanguage rt endpoint key text s
  = (sent s,
     Raise (Exn APIError
              ("Unexpected error during API call: "
                 +:+ "API returned status " +:+ str_of_int (status resp)
                 +:+ ": " +:+ data resp))).
Proof.
  intros Hc Hx Hst. unfold Rest.GetLanguage.
  match goal with
  | |- context [try_except ?m ?h] =>
      assert (Hm : m s = (sent s,
                Raise (Exn APIError
                         ("API returned status " +:+ str_of_int (status resp)
                            +:+ ": " +:+ data resp))))
  end.
  { rewrite (GetLanguage_exchange s resp _ Hc Hx). cbv beta.
    destruct (Z.eqb_spec (status resp) 200) as [E|_]; [contradiction|].
    reflexivity. }
  rewrite (try_raise _ _ _ _ _ Hm). reflexivity.
Qed.

(** Whatever the collaborators do, [GetLanguage] returns [None] or
    raises an [APIError]. *)
Lemma GetLanguage_returns_none s :
  snd (Rest.GetLanguage rt endpoint key text s) = Ok PNone
  \/ exists msg, snd (Rest.GetLanguage rt endpoint key text s) = Raise (Exn APIError msg).
Proof.
  unfold Rest.GetLanguage.
  match goal with |- context [try_except ?m ?h] => destruct (m s) as [s' [v|e]] eqn:Hm end.
  - left. rewrite (try_ok _ _ _ _ _ Hm). simpl.
    revert Hm. unfold bind, ret, emit, lift, exchange, raise.
    repeat match goal with
           | |- context [match ?x with _ => _ end] => destruct x
           end; intros [= _ <-]; reflexivity.
  - right. destruct (GetLanguage_wraps _ _ _ _ Hm) as [msg Hw].
    exists msg. rewrite Hw. reflexivity.
Qed.

Lemma prints_do_not_reach_service evs :
  Forall (fun ev => exists t, ev = EvPrint t) evs ->
  Forall (fun ev => reaches_service ev = false) evs.
Proof.
  induction 1 as [|ev evs [t ->] _ IH]; constructor; [reflexivity | exact IH].
Qed.

(** Once the connection object exists, [GetLanguage] makes its request
    and nothing it does afterwards reaches the service again. *)
Lemma GetLanguage_one_request s :
  Rest.https_connection rt (Rest.uri endpoint) = Ok tt ->
  exists evs r,
    Rest.GetLanguage rt endpoint key text s = (after (sent s) evs, r)
    /\ Forall (fun ev => reaches_service ev = false) evs.
Proof.
  intros Hc. unfold Rest.GetLanguage.
  match goal with
  | |- context [try_except ?m ?h] =>
      assert (Hm : exists evs r, m s = (after (sent s) evs, r)
                     /\ Forall (fun ev => reaches_service ev = false) evs)
  end.
  { unfold bind at 1. rewrite emit_after.
    unfold bind at 1. unfold lift at 1. rewrite Hc.
    unfold bind at 1. rewrite exchange_after. cbn [exchanges after].
    fold (after s [EvPrintJson (Rest.jsonBody text)]).
    rewrite after_after. cbn [app].
    change (exchanged (after s [EvPrintJson (Rest.jsonBody text); EvRequest request]))
      with (sent s).
    destruct (Rest.http_exchange rt (exchanges s) request) as [resp|e].
    2: { exists [], (Raise e). rewrite after_nil. split; [reflexivity|constructor]. }
    destruct (status resp =? 200)%Z.
    2: { unfold bind at 1, raise. eexists [], _. rewrite after_nil.
         split; [reflexivity|constructor]. }
    unfold bind at 1 2. unfold lift at 1.
    destruct (Rest.json_loads rt (data resp)) as [results|e].
    2: { eexists [], _. rewrite after_nil. split; [reflexivity|constructor]. }
    unfold bind at 1. rewrite emit_after.
    unfold bind at 1. unfold lift at 1.
    destruct (getitem results "documents") as [documents|e].
    2: { eexists [_], _. split; [reflexivity|]. repeat constructor. }
    unfold bind at 1. unfold lift at 1.
    destruct (iterate documents) as [items|e].
    2: { eexists [_], _. split; [reflexivity|]. repeat constructor. }
    destruct (for_each_print_document_extends items
                (after (sent s) [EvPrintJson results])) as (evs & r & -> & Hevs).
    apply prints_do_not_reach_service in Hevs.
    rewrite after_after. destruct r as [[]|e].
    - unfold bind at 1. rewrite emit_after, after_after. unfold ret.
      eexists _, _. split; [reflexivity|].
      cbn [app]. constructor; [reflexivity|].
      apply Forall_app. split; [exact Hevs | repeat constructor].
    - eexists _, _. split; [reflexivity|].
      cbn [app]. constructor; [reflexivity | exact Hevs]. }
  destruct Hm as (evs & [v|e] & Hm & Hevs).
  - rewrite (try_ok _ _ _ _ _ Hm). eauto.
  - destruct (GetLanguage_wraps _ _ _ _ Hm) as [msg Hw]. rewrite Hw. eauto.
Qed.

(** When the connection object cannot be made, nothing is sent. *)
Lemma GetLanguage_no_connection s e :
  Rest.https_connection rt (Rest.uri endpoint) = Raise e ->
  exists msg,
    Rest.GetLanguage rt endpoint key text s
    = (after s [EvPrintJson (Rest.jsonBody text)], Raise (Exn APIError msg)).
Proof.
  intros Hc. unfold Rest.GetLanguage.
  apply GetLanguage_wraps with (e := e).
  unfold bind at 1. rewrite emit_after.
  unfold bind at 1, lift. rewrite Hc. reflexivity.
Qed.

End GetLanguage.

(** ** The SDK client *)

Section DetectLanguage.
Variable rt : Sdk.runtime.
Variable self : Sdk.LanguageDetector.
Variable text : string.

Abbreviation called s := (exchanged (after s [EvSdkCall [text]])).

(** The first item of the list is a result: its language name is
    returned. *)
Lemma detect_language_first s p rest :
  Sdk.client_detect_language rt (exchanges s) (Sdk.client self) [text]
    = Ok (Sdk.DetectLanguageResult p :: rest) ->
  Sdk.detect_language rt self text s = (called s, Ok (Sdk.name p)).
Proof.
  intros H. unfold Sdk.detect_language. apply try_ok.
  unfold bind at 1. rewrite exchange_after, H. reflexivity.
Qed.

(** The list is empty: indexing it raises [IndexError], which the
    [except AzureError] clause lets through. *)
Lemma detect_language_empty s :
  Sdk.client_detect_language rt (exchanges s) (Sdk.client self) [text] = Ok [] ->
  Sdk.detect_language rt self text s
  = (called s, Raise (Exn IndexError "list index out of range")).
Proof.
  intros H. unfold Sdk.detect_language.
  erewrite try_raise with (e := Exn IndexError "list index out of range")
                          (s' := called s); [reflexivity|].
  unfold bind at 1. rewrite exchange_after, H. reflexivity.
Qed.

(** [detect_language] calls the SDK once and does nothing else. *)
Lemma detect_language_state s :
  fst (Sdk.detect_language rt self text s) = called s.
Proof.
  unfold Sdk.detect_language, try_except.
  unfold bind at 1. rewrite exchange_after.
  destruct (Sdk.client_detect_language rt (exchanges s) (Sdk.client self) [text])
    as [[|[p|msg] l]|e]; cbn; try reflexivity.
  destruct (exn_cls e); reflexivity.
Qed.

End DetectLanguage.

(** ** Claims about the language clients *)

(** C5, as stated, fails for the raw-HTTP client: on the 200 response
    of the unit tests, whose first document is named English,
    [GetLanguage] prints the name and returns [None], not the text
    English. *)
Lemma GetLanguage_returns_none_counterexample :
  Scenario.loads Scenario.english_body = Ok Scenario.english_value
  /\ getitem Scenario.english_value "documents"
     = Ok (PList [PDict [("detectedLanguage", PDict [("name", PStr "English")])]])
  /\ Rest.language_name (PDict [("detectedLanguage", PDict [("name", PStr "English")])])
     = Ok (PStr "English")
  /\ snd (Rest.GetLanguage Scenario.rt_english
            "https://test-endpoint.com" "test-key" "Hello" (Scenario.initial []))
     = Ok PNone
  /\ snd (Rest.GetLanguage Scenario.rt_english
            "https://test-endpoint.com" "test-key" "Hello" (Scenario.initial []))
     <> Ok (PStr "English").
Proof.
  assert (H : snd (Rest.GetLanguage Scenario.rt_english
                     "https://test-endpoint.com" "test-key" "Hello"
                     (Scenario.initial [])) = Ok PNone)
    by (vm_compute; reflexivity).
  split; [vm_compute; reflexivity|].
  split; [vm_compute; reflexivity|].
  split; [vm_compute; reflexivity|].
  split; [exact H|]. rewrite H. discriminate.
Qed.

(** C5, amended: on a 200 response whose first document is named
    English, the raw-HTTP client prints the line Language: English and
    hands no text to its caller: it returns [None], or raises an
    [APIError] when a later document has no language name.  The SDK
    client, given a first result whose primary language is named
    English, returns the text English. *)
Theorem first_language_is_surfaced :
  (forall (rt : Rest.runtime) (endpoint key text : string) (s : state)
          (resp : response) (results doc : pyval) (docs : list pyval),
     Rest.https_connection rt (Rest.uri endpoint) = Ok tt ->
     Rest.http_exchange rt (exchanges s) (Rest.language_request endpoint key text)
       = Ok resp ->
     status resp = 200%Z ->
     Rest.json_loads rt (data resp) = Ok results ->
     getitem results "documents" = Ok (PList (doc :: docs)) ->
     Rest.language_name doc = Ok (PStr "English") ->
     exists evs r,
       Rest.GetLanguage rt endpoint key text s
       = (after (Rest.sent endpoint key text s)
            (EvPrintJson results
               :: EvPrint (newline +:+ "Language: English") :: evs), r)
       /\ (r = Ok PNone \/ exists msg, r = Raise (Exn APIError msg)))
  /\ (forall (rt : Sdk.runtime) (self : Sdk.LanguageDetector) (text : string)
             (s : state) (p : Sdk.DetectedLanguage) (rest : list Sdk.document_result),
        Sdk.client_detect_language rt (exchanges s) (Sdk.client self) [text]
          = Ok (Sdk.DetectLanguageResult p :: rest) ->
        Sdk.name p = "English" ->
        snd (Sdk.detect_language rt self text s) = Ok "English").
Proof.
  split.
  - intros rt endpoint key text s resp results doc docs Hc Hx Hst Hj Hd Hn.
    exact (GetLanguage_first_document rt endpoint key text s resp results doc docs
             (PStr "English") Hc Hx Hst Hj Hd Hn).
  - intros rt self text s p rest H Hname.
    rewrite (detect_language_first rt self text s p rest H), <- Hname.
    reflexivity.
Qed.

(** The amended C5 at the replies of the unit tests. *)
Lemma first_language_is_surfaced_witness :
  (exists evs r,
     Rest.GetLanguage Scenario.rt_english
       "https://test-endpoint.com" "test-key" "Hello" (Scenario.initial [])
     = (after (Rest.sent "https://test-endpoint.com" "test-key" "Hello"
                 (Scenario.initial []))
          (EvPrintJson Scenario.english_value
             :: EvPrint (newline +:+ "Language: English") :: evs), r)
     /\ (r = Ok PNone \/ exists msg, r = Raise (Exn APIError msg)))
  /\ snd (Sdk.detect_language Scenario.sdk_english Scenario.detector_ok "Hello"
            (Scenario.initial []))
     = Ok "English".
Proof.
  split.
  - apply (proj1 first_language_is_surfaced Scenario.rt_english
             "https://test-endpoint.com" "test-key" "Hello" (Scenario.initial [])
             (Response 200 Scenario.english_body) Scenario.english_value
             (PDict [("detectedLanguage", PDict [("name", PStr "English")])]) []).
    + reflexivity.
    + reflexivity.
    + reflexivity.
    + vm_compute. reflexivity.
    + vm_compute. reflexivity.
    + vm_compute. reflexivity.
  - apply (proj2 first_language_is_surfaced Scenario.sdk_english
             Scenario.detector_ok "Hello" (Scenario.initial [])
             (Sdk.MkDetectedLanguage "English" "en") []).
    + reflexivity.
    + reflexivity.
Defined.

(** C8, as stated, fails: on a 200 response whose documents array is
    empty, [GetLanguage] raises nothing at all; it prints no language
    and returns [None]. *)
Lemma empty_documents_counterexample :
  Scenario.loads Scenario.no_documents_body = Ok (PDict [("documents", PList [])])
  /\ Rest.GetLanguage Scenario.rt_no_documents
       "https://test-endpoint.com" "test-key" "Hello" (Scenario.initial [])
     = (State "" []
          [EvPrintJson (Rest.jsonBody "Hello");
           EvRequest (Rest.language_request
                        "https://test-endpoint.com" "test-key" "Hello");
           EvPrintJson (PDict [("documents", PList [])]);
           EvClose] 1,
        Ok PNone)
  /\ (forall e,
        snd (Rest.GetLanguage Scenario.rt_no_documents
               "https://test-endpoint.com" "test-key" "Hello" (Scenario.initial []))
        <> Raise e).
Proof.
  assert (H : Rest.GetLanguage Scenario.rt_no_documents
                "https://test-endpoint.com" "test-key" "Hello" (Scenario.initial [])
              = (State "" []
                   [EvPrintJson (Rest.jsonBody "Hello");
                    EvRequest (Rest.language_request
                                 "https://test-endpoint.com" "test-key" "Hello");
                    EvPrintJson (PDict [("documents", PList [])]);
                    EvClose] 1,
                 Ok PNone))
    by (vm_compute; reflexivity).
  split; [vm_compute; reflexivity|].
  split; [exact H|].
  intros e. rewrite H. discriminate.
Qed.

(** C8, amended: on a 200 response, the raw-HTTP client prints the
    language name of every document of the documents array, in the
    order of the array, and returns [None]; when the array is empty it
    prints no language, raises nothing and returns [None]. *)
Theorem every_document_is_printed
    (rt : Rest.runtime) (endpoint key text : string) (s : state)
    (resp : response) (results : pyval) (docs names : list pyval) :
  Rest.https_connection rt (Rest.uri endpoint) = Ok tt ->
  Rest.http_exchange rt (exchanges s) (Rest.language_request endpoint key text)
    = Ok resp ->
  status resp = 200%Z ->
  Rest.json_loads rt (data resp) = Ok results ->
  getitem results "documents" = Ok (PList docs) ->
  Forall2 (fun doc nm => Rest.language_name doc = Ok nm) docs names ->
  Rest.GetLanguage rt endpoint key text s
  = (after (Rest.sent endpoint key text s)
       (EvPrintJson results
          :: map (fun nm => EvPrint (newline +:+ "Language: " +:+ str nm)) names
          ++ [EvClose]),
     Ok PNone)
  /\ (docs = [] ->
      Rest.GetLanguage rt endpoint key text s
      = (after (Rest.sent endpoint key text s) [EvPrintJson results; EvClose],
         Ok PNone)).
Proof.
  intros Hc Hx Hst Hj Hd Hn.
  pose proof (GetLanguage_success rt endpoint key text s resp results docs names
                Hc Hx Hst Hj Hd Hn) as H.
  split; [exact H|].
  intros ->. inversion Hn; subst. exact H.
Qed.

(** The amended C8 at a 200 response without documents. *)
Lemma every_document_is_printed_witness :
  Rest.GetLanguage Scenario.rt_no_documents
    "https://test-endpoint.com" "test-key" "Hello" (Scenario.initial [])
  = (after (Rest.sent "https://test-endpoint.com" "test-key" "Hello"
              (Scenario.initial []))
       [EvPrintJson Scenario.no_documents_value; EvClose],
     Ok PNone).
Proof.
  apply (every_document_is_printed Scenario.rt_no_documents
           "https://test-endpoint.com" "test-key" "Hello" (Scenario.initial [])
           (Response 200 Scenario.no_documents_body)
           Scenario.no_documents_value [] []).
  - reflexivity.
  - reflexivity.
  - reflexivity.
  - vm_compute. reflexivity.
  - vm_compute. reflexivity.
  - constructor.
  - reflexivity.
Defined.

(** C7, at the endpoint, key and text of the unit tests: the request
    that [GetLanguage] makes carries the bytes of
    [{'documents': [{'id': 1, 'text': 'Hello'}]}], the [str] of the
    dictionary with its single quotes, and not the JSON text the
    specification spells out, although the script's comments, its
    [json.dumps] echo and its Content-Type header all call the body
    JSON.  The id in the dictionary is the integer 1. *)
Lemma request_body_at_failing_input :
  In (EvRequest (Rest.language_request "https://test-endpoint.com" "test-key" "Hello"))
     (trace (fst (Rest.GetLanguage Scenario.rt_english
                    "https://test-endpoint.com" "test-key" "Hello"
                    (Scenario.initial []))))
  /\ req_body (Rest.language_request "https://test-endpoint.com" "test-key" "Hello")
     = encode_utf8 "{'documents': [{'id': 1, 'text': 'Hello'}]}"
  /\ Rest.jsonBody "Hello"
     = PDict [("documents", PList [PDict [("id", PInt 1); ("text", PStr "Hello")]])]
  /\ Rest.jsonBody "Hello" <> Spec.body_value "Hello"
  /\ req_body (Rest.language_request "https://test-endpoint.com" "test-key" "Hello")
     <> encode_utf8 (Spec.body_text "Hello")
  /\ In (EvPrintJson (Rest.jsonBody "Hello"))
       (trace (fst (Rest.GetLanguage Scenario.rt_english
                      "https://test-endpoint.com" "test-key" "Hello"
                      (Scenario.initial []))))
  /\ In ("Content-Type", "application/json")
       (req_headers (Rest.language_request
                       "https://test-endpoint.com" "test-key" "Hello")).
Proof.
  split; [vm_compute; tauto|].
  split; [vm_compute; reflexivity|].
  split; [reflexivity|].
  split; [discriminate|].
  split; [vm_compute; discriminate|].
  split; [vm_compute; tauto|].
  vm_compute. tauto.
Qed.

(** ** The interactive loop of rest-client.py *)

Section RestLoop.
Variable rt : Rest.runtime.
Variables endpoint key : string.

Abbreviation prompted s line rest :=
  (after (consumed s line rest) [EvPrompt Rest.prompt]).

(** [GetLanguage] leaves the loop variable and standard input alone,
    and only adds to what happened. *)
Lemma GetLanguage_frame text s :
  exists evs n r,
    Rest.GetLanguage rt endpoint key text s
    = (State (user_text s) (stdin s) (trace s ++ evs)%list n, r).
Proof.
  destruct (Rest.https_connection rt (Rest.uri endpoint)) as [[]|e] eqn:Hc.
  - destruct (GetLanguage_one_request rt endpoint key text s Hc) as (evs & r & -> & _).
    eexists _, _, r. unfold after, Rest.sent, exchanged. cbn.
    rewrite <- app_assoc. reflexivity.
  - destruct (GetLanguage_no_connection rt endpoint key text s e Hc) as (msg & ->).
    eexists _, _, _. reflexivity.
Qed.

(** Standard input is exhausted: [input] raises [EOFError]. *)
Lemma rest_loop_try_eof s :
  stdin s = [] ->
  Rest.loop_try rt endpoint key s
  = (after s [EvPrompt Rest.prompt], Raise (Exn EOFError "EOF when reading a line")).
Proof.
  intros H. unfold Rest.loop_try, bind at 1, input, after. rewrite H. reflexivity.
Qed.

(** The line is the sentinel: nothing is called. *)
Lemma rest_loop_try_quit s line rest :
  stdin s = line :: rest -> lower line = "quit" ->
  Rest.loop_try rt endpoint key s = (prompted s line rest, Ok tt).
Proof.
  intros H Hq. unfold Rest.loop_try, bind at 1, input. rewrite H.
  unfold bind, set_user_text, get_user_text. cbn [user_text].
  rewrite Hq. reflexivity.
Qed.

(** The line is rejected by the validator: the client is not called. *)
Lemma rest_loop_try_invalid s line rest e :
  stdin s = line :: rest -> lower line <> "quit" ->
  Rest.validate_text line = Raise e ->
  Rest.loop_try rt endpoint key s
  = (after (prompted s line rest) [EvCall "validate_text" line], Raise e).
Proof.
  intros H Hq Hv. unfold Rest.loop_try, bind at 1, input. rewrite H.
  unfold bind at 1 2, set_user_text, get_user_text. cbn [user_text].
  apply String.eqb_neq in Hq. rewrite Hq. cbn [negb].
  unfold bind at 1. rewrite emit_after.
  unfold bind at 1, lift. rewrite Hv. reflexivity.
Qed.

(** The line is accepted by the validator: the outcome is that of the
    client. *)
Lemma rest_loop_try_client s line rest :
  stdin s = line :: rest -> lower line <> "quit" ->
  Rest.validate_text line = Ok tt ->
  Rest.loop_try rt endpoint key s
  = (fst (Rest.GetLanguage rt endpoint key line
            (after (prompted s line rest)
               [EvCall "validate_text" line; EvCall "GetLanguage" line])),
     match snd (Rest.GetLanguage rt endpoint key line
                  (after (prompted s line rest)
                     [EvCall "validate_text" line; EvCall "GetLanguage" line])) with
     | Ok _ => Ok tt
     | Raise e => Raise e
     end).
Proof.
  intros H Hq Hv. unfold Rest.loop_try, bind at 1, input. rewrite H.
  unfold bind at 1 2, set_user_text, get_user_text. cbn [user_text].
  apply String.eqb_neq in Hq. rewrite Hq. cbn [negb].
  unfold bind at 1. rewrite emit_after.
  unfold bind at 1, lift. rewrite Hv.
  unfold bind at 1. rewrite emit_after, after_after. cbn [app].
  unfold bind at 1.
  destruct (Rest.GetLanguage rt endpoint key line _) as [s' [v|e]]; reflexivity.
Qed.

(** The [try] suite starts by writing the prompt, and only adds to what
    happened. *)
Lemma rest_loop_try_trace s :
  exists evs,
    trace (fst (Rest.loop_try rt endpoint key s))
    = (trace s ++ EvPrompt Rest.prompt :: evs)%list.
Proof.
  destruct (stdin s) as [|line rest] eqn:H.
  { rewrite (rest_loop_try_eof s H). exists []. reflexivity. }
  destruct (String.eqb_spec (lower line) "quit") as [Hq|Hq].
  { rewrite (rest_loop_try_quit s line rest H Hq). exists []. reflexivity. }
  destruct (Rest.validate_text line) as [[]|e] eqn:Hv.
  - rewrite (rest_loop_try_client s line rest H Hq Hv).
    destruct (GetLanguage_frame line
                (after (prompted s line rest)
                   [EvCall "validate_text" line; EvCall "GetLanguage" line]))
      as (evs & n & r & ->).
    eexists. cbn. rewrite <- !app_assoc. reflexivity.
  - rewrite (rest_loop_try_invalid s line rest e H Hq Hv).
    eexists. cbn. rewrite <- !app_assoc. reflexivity.
Qed.

(** When the [try] suite raises, the condition of the loop still holds
    afterwards. *)
Lemma rest_loop_try_raise_cond s s1 e :
  Rest.loop_cond s = true ->
  Rest.loop_try rt endpoint key s = (s1, Raise e) ->
  Rest.loop_cond s1 = true.
Proof.
  intros Hcond. destruct (stdin s) as [|line rest] eqn:H.
  { rewrite (rest_loop_try_eof s H). intros [= <- _]. exact Hcond. }
  destruct (String.eqb_spec (lower line) "quit") as [Hq|Hq].
  { rewrite (rest_loop_try_quit s line rest H Hq). discriminate. }
  assert (Hline : negb (String.eqb (lower line) "quit") = true).
  { apply String.eqb_neq in Hq. rewrite Hq. reflexivity. }
  destruct (Rest.validate_text line) as [[]|e'] eqn:Hv.
  - rewrite (rest_loop_try_client s line rest H Hq Hv).
    destruct (GetLanguage_frame line
                (after (prompted s line rest)
                   [EvCall "validate_text" line; EvCall "GetLanguage" line]))
      as (evs & n & r & ->).
    intros [= <- _]. exact Hline.
  - rewrite (rest_loop_try_invalid s line rest e' H Hq Hv).
    intros [= <- _]. exact Hline.
Qed.

(** The [except] clauses print one line and raise nothing. *)
Lemma rest_loop_except_prints e s1 :
  Rest.loop_except e s1
  = (after s1 [EvPrint (match exn_cls e with
                        | InputError => "Input error: "
                        | APIError => "API error: "
                        | _ => "Unexpected error: "
                        end +:+ exn_str e)], Ok tt).
Proof. unfold Rest.loop_except. destruct (exn_cls e); reflexivity. Qed.

(** One pass through the loop body never raises. *)
Lemma rest_loop_body_ok s :
  exists s', Rest.loop_body rt endpoint key s = (s', Ok tt).
Proof.
  unfold Rest.loop_body, try_except.
  destruct (Rest.loop_try rt endpoint key s) as [s1 [[]|e]].
  - eauto.
  - rewrite rest_loop_except_prints. eauto.
Qed.

(** One pass through the loop body starts by writing the prompt. *)
Lemma rest_loop_body_trace s :
  exists evs,
    trace (fst (Rest.loop_body rt endpoint key s))
    = (trace s ++ EvPrompt Rest.prompt :: evs)%list.
Proof.
  destruct (rest_loop_try_trace s) as [evs Ht].
  unfold Rest.loop_body, try_except.
  destruct (Rest.loop_try rt endpoint key s) as [s1 [[]|e]].
  - exists evs. exact Ht.
  - rewrite rest_loop_except_prints. cbn [fst trace after] in *. rewrite Ht.
    eexists. rewrite <- app_assoc. reflexivity.
Qed.

Lemma rest_while_loop_step fuel s :
  Rest.loop_cond s = true ->
  Rest.while_loop rt endpoint key (S fuel) s
  = bind (Rest.loop_body rt endpoint key)
      (fun _ => Rest.while_loop rt endpoint key fuel) s.
Proof.
  intros H. cbn [Rest.while_loop]. unfold bind at 1, get_user_text.
  unfold Rest.loop_cond in H. rewrite H. reflexivity.
Qed.

Lemma rest_while_loop_stop fuel s :
  Rest.loop_cond s = false ->
  Rest.while_loop rt endpoint key (S fuel) s = (s, Ok (Some tt)).
Proof.
  intros H. cbn [Rest.while_loop]. unfold bind at 1, get_user_text.
  unfold Rest.loop_cond in H. rewrite H. reflexivity.
Qed.

(** The loop never raises. *)
Lemma rest_while_loop_ok fuel s :
  exists s' r, Rest.while_loop rt endpoint key fuel s = (s', Ok r).
Proof.
  revert s. induction fuel as [|fuel IH]; intros s.
  - eexists _, _. reflexivity.
  - destruct (Rest.loop_cond s) eqn:Hc.
    + rewrite (rest_while_loop_step fuel s Hc).
      destruct (rest_loop_body_ok s) as [s' Hb].
      rewrite (bind_ok _ _ _ _ _ Hb). apply IH.
    + rewrite (rest_while_loop_stop fuel s Hc). eauto.
Qed.

(** A pass whose [try] suite raised recovers. *)
Lemma rest_loop_body_recovers s s1 e :
  Rest.loop_cond s = true ->
  Rest.loop_try rt endpoint key s = (s1, Raise e) ->
  Spec.recovers Rest.loop_cond (Rest.loop_body rt endpoint key)
    (Rest.while_loop rt endpoint key) Rest.prompt
    (match exn_cls e with
     | InputError => "Input error: "
     | APIError => "API error: "
     | _ => "Unexpected error: "
     end) s s1 e.
Proof.
  intros Hcond Htry.
  assert (Hbody : Rest.loop_body rt endpoint key s
                  = (after s1 [EvPrint (match exn_cls e with
                                        | InputError => "Input error: "
                                        | APIError => "API error: "
                                        | _ => "Unexpected error: "
                                        end +:+ exn_str e)], Ok tt)).
  { unfold Rest.loop_body. rewrite (try_raise _ _ _ _ _ Htry).
    apply rest_loop_except_prints. }
  assert (Hcond' : Rest.loop_cond
                     (after s1 [EvPrint (match exn_cls e with
                                         | InputError => "Input error: "
                                         | APIError => "API error: "
                                         | _ => "Unexpected error: "
                                         end +:+ exn_str e)]) = true)
    by exact (rest_loop_try_raise_cond s s1 e Hcond Htry).
  split; [exact Hbody|]. split; [exact Hcond'|]. split.
  - intros fuel. rewrite (rest_while_loop_step _ s Hcond), (bind_ok _ _ _ _ _ Hbody).
    apply rest_while_loop_step. exact Hcond'.
  - match goal with |- context [Rest.loop_body _ _ _ ?s2] =>
      destruct (rest_loop_body_trace s2) as [evs Ht] end.
    exists evs. rewrite Ht. cbn [trace after]. rewrite <- app_assoc. reflexivity.
Qed.

End RestLoop.

(** A failure to load the configuration is printed and raised again. *)
Lemma rest_main_configuration_error rt environ fuel s e :
  Rest.validate_configuration environ = Raise e ->
  Rest.main rt environ fuel s
  = (after s [EvPrint ("Configuration error: " +:+ exn_str e)], Raise e).
Proof.
  intros H. unfold Rest.main.
  rewrite (try_raise _ _ s s e) by (unfold bind at 1, lift; rewrite H; reflexivity).
  rewrite (validate_configuration_raises environ e H).
  unfold bind at 1. rewrite emit_after. reflexivity.
Qed.

(** Nothing else makes [main] raise. *)
Lemma rest_main_raises_only_configuration rt environ fuel s e :
  snd (Rest.main rt environ fuel s) = Raise e ->
  Rest.validate_configuration environ = Raise e.
Proof.
  destruct (Rest.validate_configuration environ) as [[ep k]|e'] eqn:H.
  - unfold Rest.main, try_except.
    unfold bind at 1, lift. rewrite H.
    unfold bind at 1, set_user_text. cbn [fst snd].
    match goal with |- context [Rest.while_loop _ ?a ?b ?f ?s0] =>
      destruct (rest_while_loop_ok rt a b f s0) as (s' & r & ->) end.
    discriminate.
  - rewrite (rest_main_configuration_error rt environ fuel s e' H).
    intros [= <-]. reflexivity.
Qed.


(** ** The interactive loop of sdk-client.py *)

Section SdkLoop.
Variable rt : Sdk.runtime.
Variable detector : Sdk.LanguageDetector.

Abbreviation sdk_prompted s line rest :=
  (after (consumed s line rest) [EvPrompt Sdk.prompt]).
Abbreviation sdk_validated s line rest :=
  (after (sdk_prompted s line rest)
     [EvCall "TextValidator.validate" line; EvCall "detect_language" line]).
#[warnings="-inconsistent-scopes"]
Abbreviation sdk_called s line rest :=
  (exchanged (after (sdk_validated s line rest) [EvSdkCall [line]])).

Lemma sdk_loop_try_eof s :
  stdin s = [] ->
  Sdk.loop_try rt detector s
  = (after s [EvPrompt Sdk.prompt], Raise (Exn EOFError "EOF when reading a line")).
Proof.
  intros H. unfold Sdk.loop_try, bind at 1, input, after. rewrite H. reflexivity.
Qed.

Lemma sdk_loop_try_quit s line rest :
  stdin s = line :: rest -> lower line = "quit" ->
  Sdk.loop_try rt detector s = (sdk_prompted s line rest, Ok tt).
Proof.
  intros H Hq. unfold Sdk.loop_try, bind at 1, input. rewrite H.
  unfold bind, set_user_text, get_user_text. cbn [user_text].
  rewrite Hq. reflexivity.
Qed.

Lemma sdk_loop_try_invalid s line rest e :
  stdin s = line :: rest -> lower line <> "quit" ->
  Sdk.TextValidator.validate line = Raise e ->
  Sdk.loop_try rt detector s
  = (after (sdk_prompted s line rest) [EvCall "TextValidator.validate" line],
     Raise e).
Proof.
  intros H Hq Hv. unfold Sdk.loop_try, bind at 1, input. rewrite H.
  unfold bind at 1 2, set_user_text, get_user_text. cbn [user_text].
  apply String.eqb_neq in Hq. rewrite Hq. cbn [negb].
  unfold bind at 1. rewrite emit_after.
  unfold bind at 1, lift. rewrite Hv. reflexivity.
Qed.

(** The line is accepted by the validator: the language is printed, or
    the exception of [detect_language] is raised. *)
Lemma sdk_loop_try_client s line rest :
  stdin s = line :: rest -> lower line <> "quit" ->
  Sdk.TextValidator.validate line = Ok tt ->
  Sdk.loop_try rt detector s
  = match snd (Sdk.detect_language rt detector line (sdk_validated s line rest)) with
    | Ok language =>
        (after (sdk_called s line rest) [EvPrint ("Language: " +:+ language)], Ok tt)
    | Raise e => (sdk_called s line rest, Raise e)
    end.
Proof.
  intros H Hq Hv. unfold Sdk.loop_try, bind at 1, input. rewrite H.
  unfold bind at 1 2, set_user_text, get_user_text. cbn [user_text].
  apply String.eqb_neq in Hq. rewrite Hq. cbn [negb].
  unfold bind at 1. rewrite emit_after.
  unfold bind at 1, lift. rewrite Hv.
  unfold bind at 1. rewrite emit_after, after_after. cbn [app].
  unfold bind at 1.
  pose proof (detect_language_state rt detector line (sdk_validated s line rest)) as Hs.
  destruct (Sdk.detect_language rt detector line _) as [s' [v|e]];
    cbn [fst snd] in *; subst s'; reflexivity.
Qed.

Lemma sdk_loop_try_trace s :
  exists evs,
    trace (fst (Sdk.loop_try rt detector s))
    = (trace s ++ EvPrompt Sdk.prompt :: evs)%list.
Proof.
  destruct (stdin s) as [|line rest] eqn:H.
  { rewrite (sdk_loop_try_eof s H). exists []. reflexivity. }
  destruct (String.eqb_spec (lower line) "quit") as [Hq|Hq].
  { rewrite (sdk_loop_try_quit s line rest H Hq). exists []. reflexivity. }
  destruct (Sdk.TextValidator.validate line) as [[]|e] eqn:Hv.
  - rewrite (sdk_loop_try_client s line rest H Hq Hv).
    destruct (snd (Sdk.detect_language rt detector line _));
      eexists; cbn; rewrite <- !app_assoc; reflexivity.
  - rewrite (sdk_loop_try_invalid s line rest e H Hq Hv).
    eexists. cbn. rewrite <- !app_assoc. reflexivity.
Qed.

Lemma sdk_loop_try_raise_cond s s1 e :
  Sdk.loop_cond s = true ->
  Sdk.loop_try rt detector s = (s1, Raise e) ->
  Sdk.loop_cond s1 = true.
Proof.
  intros Hcond. destruct (stdin s) as [|line rest] eqn:H.
  { rewrite (sdk_loop_try_eof s H). intros [= <- _]. exact Hcond. }
  destruct (String.eqb_spec (lower line) "quit") as [Hq|Hq].
  { rewrite (sdk_loop_try_quit s line rest H Hq). discriminate. }
  assert (Hline : negb (String.eqb (lower line) "quit") = true).
  { apply String.eqb_neq in Hq. rewrite Hq. reflexivity. }
  destruct (Sdk.TextValidator.validate line) as [[]|e'] eqn:Hv.
  - rewrite (sdk_loop_try_client s line rest H Hq Hv).
    destruct (snd (Sdk.detect_language rt detector line _)).
    + discriminate.
    + intros [= <- _]. exact Hline.
  - rewrite (sdk_loop_try_invalid s line rest e' H Hq Hv).
    intros [= <- _]. exact Hline.
Qed.

Lemma sdk_loop_except_prints e s1 :
  Sdk.loop_except e s1
  = (after s1 [EvPrint (match exn_cls e with
                        | InputError => "Input error: "
                        | AzureError => "Azure service error: "
                        | _ => "Unexpected error: "
                        end +:+ exn_str e)], Ok tt).
Proof. unfold Sdk.loop_except. destruct (exn_cls e); reflexivity. Qed.

Lemma sdk_loop_body_ok s :
  exists s', Sdk.loop_body rt detector s = (s', Ok tt).
Proof.
  unfold Sdk.loop_body, try_except.
  destruct (Sdk.loop_try rt detector s) as [s1 [[]|e]].
  - eauto.
  - rewrite sdk_loop_except_prints. eauto.
Qed.

Lemma sdk_loop_body_trace s :
  exists evs,
    trace (fst (Sdk.loop_body rt detector s))
    = (trace s ++ EvPrompt Sdk.prompt :: evs)%list.
Proof.
  destruct (sdk_loop_try_trace s) as [evs Ht].
  unfold Sdk.loop_body, try_except.
  destruct (Sdk.loop_try rt detector s) as [s1 [[]|e]].
  - exists evs. exact Ht.
  - rewrite sdk_loop_except_prints. cbn [fst trace after] in *. rewrite Ht.
    eexists. rewrite <- app_assoc. reflexivity.
Qed.

Lemma sdk_while_loop_step fuel s :
  Sdk.loop_cond s = true ->
  Sdk.while_loop rt detector (S fuel) s
  = bind (Sdk.loop_body rt detector) (fun _ => Sdk.while_loop rt detector fuel) s.
Proof.
  intros H. cbn [Sdk.while_loop]. unfold bind at 1, get_user_text.
  unfold Sdk.loop_cond in H. rewrite H. reflexivity.
Qed.

Lemma sdk_while_loop_stop fuel s :
  Sdk.loop_cond s = false ->
  Sdk.while_loop rt detector (S fuel) s = (s, Ok (Some tt)).
Proof.
  intros H. cbn [Sdk.while_loop]. unfold bind at 1, get_user_text.
  unfold Sdk.loop_cond in H. rewrite H. reflexivity.
Qed.

Lemma sdk_while_loop_ok fuel s :
  exists s' r, Sdk.while_loop rt detector fuel s = (s', Ok r).
Proof.
  revert s. induction fuel as [|fuel IH]; intros s.
  - eexists _, _. reflexivity.
  - destruct (Sdk.loop_cond s) eqn:Hc.
    + rewrite (sdk_while_loop_step fuel s Hc).
      destruct (sdk_loop_body_ok s) as [s' Hb].
      rewrite (bind_ok _ _ _ _ _ Hb). apply IH.
    + rewrite (sdk_while_loop_stop fuel s Hc). eauto.
Qed.

Lemma sdk_loop_body_recovers s s1 e :
  Sdk.loop_cond s = true ->
  Sdk.loop_try rt detector s = (s1, Raise e) ->
  Spec.recovers Sdk.loop_cond (Sdk.loop_body rt detector)
    (Sdk.while_loop rt detector) Sdk.prompt
    (match exn_cls e with
     | InputError => "Input error: "
     | AzureError => "Azure service error: "
     | _ => "Unexpected error: "
     end) s s1 e.
Proof.
  intros Hcond Htry.
  assert (Hbody : Sdk.loop_body rt detector s
                  = (after s1 [EvPrint (match exn_cls e with
                                        | InputError => "Input error: "
                                        | AzureError => "Azure service error: "
                                        | _ => "Unexpected error: "
                                        end +:+ exn_str e)], Ok tt)).
  { unfold Sdk.loop_body. rewrite (try_raise _ _ _ _ _ Htry).
    apply sdk_loop_except_prints. }
  assert (Hcond' : Sdk.loop_cond
                     (after s1 [EvPrint (match exn_cls e with
                                         | InputError => "Input error: "
                                         | AzureError => "Azure service error: "
                                         | _ => "Unexpected error: "
                                         end +:+ exn_str e)]) = true)
    by exact (sdk_loop_try_raise_cond s s1 e Hcond Htry).
  split; [exact Hbody|]. split; [exact Hcond'|]. split.
  - intros fuel. rewrite (sdk_while_loop_step _ s Hcond), (bind_ok _ _ _ _ _ Hbody).
    apply sdk_while_loop_step. exact Hcond'.
  - match goal with |- context [Sdk.loop_body _ _ ?s2] =>
      destruct (sdk_loop_body_trace s2) as [evs Ht] end.
    exists evs. rewrite Ht. cbn [trace after]. rewrite <- app_assoc. reflexivity.
Qed.

End SdkLoop.

Lemma sdk_main_configuration_error rt environ fuel s e :
  Sdk.from_env environ = Raise e ->
  Sdk.main rt environ fuel s
  = (after s [EvPrint ("Configuration error: " +:+ exn_str e)], Raise e).
Proof.
  intros H. unfold Sdk.main.
  rewrite (try_raise _ _ s s e) by (unfold bind at 1, lift; rewrite H; reflexivity).
  rewrite (from_env_raises environ e H).
  unfold bind at 1. rewrite emit_after. reflexivity.
Qed.

Lemma sdk_main_raises_only_configuration rt environ fuel s e :
  snd (Sdk.main rt environ fuel s) = Raise e ->
  Sdk.from_env environ = Raise e.
Proof.
  destruct (Sdk.from_env environ) as [config|e'] eqn:H.
  - unfold Sdk.main, try_except.
    unfold bind at 1, lift. rewrite H.
    unfold bind at 1, set_user_text. cbn [fst snd].
    match goal with |- context [Sdk.while_loop _ ?d ?f ?s0] =>
      destruct (sdk_while_loop_ok rt d f s0) as (s' & r & ->) end.
    discriminate.
  - rewrite (sdk_main_configuration_error rt environ fuel s e' H).
    intros [= <-]. reflexivity.
Qed.

(** Whatever [GetLanguage] raises is an [APIError]. *)
Lemma GetLanguage_raises rt endpoint key text s e :
  snd (Rest.GetLanguage rt endpoint key text s) = Raise e -> exn_cls e = APIError.
Proof.
  destruct (GetLanguage_returns_none rt endpoint key text s) as [H|[msg H]];
    rewrite H; [discriminate|].
  intros [= <-]. reflexivity.
Qed.

(** ** Claims about the interactive loop *)

(** C3, as stated, fails: the line made of a blank and the word quit
    equals the sentinel once trimmed and lowered, yet both scripts call
    their validator and their client on it, and they only stop at the
    next line, which is the word quit itself. *)
Lemma padded_sentinel_counterexample :
  Spec.is_sentinel " quit" = true
  /\ Rest.main Scenario.rt_english Scenario.environ_ok 3
       (Scenario.initial [" quit"; "quit"])
     = (State "quit" []
          [EvPrompt Rest.prompt;
           EvCall "validate_text" " quit";
           EvCall "GetLanguage" " quit";
           EvPrintJson (Rest.jsonBody " quit");
           EvRequest (Rest.language_request
                        "https://test-endpoint.com" "test-key" " quit");
           EvPrintJson Scenario.english_value;
           EvPrint (newline +:+ "Language: English");
           EvClose;
           EvPrompt Rest.prompt] 1,
        Ok (Some tt))
  /\ Sdk.main Scenario.sdk_english Scenario.environ_ok 3
       (Scenario.initial [" quit"; "quit"])
     = (State "quit" []
          [EvPrompt Sdk.prompt;
           EvCall "TextValidator.validate" " quit";
           EvCall "detect_language" " quit";
           EvSdkCall [" quit"];
           EvPrint "Language: English";
           EvPrompt Sdk.prompt] 1,
        Ok (Some tt)).
Proof. vm_compute. repeat split; reflexivity. Qed.

(** C3, amended: a line whose lowered value, taken as typed and not
    trimmed, is the word quit ends the loop of both scripts normally;
    between reading that line and returning, the loop writes its prompt
    and does nothing else: neither the validator nor the client is
    called. *)
Theorem sentinel_line_ends_loop
    (rest_rt : Rest.runtime) (endpoint key : string)
    (sdk_rt : Sdk.runtime) (detector : Sdk.LanguageDetector)
    (s : state) (line : string) (rest : list string) (fuel : nat) :
  Rest.loop_cond s = true ->
  stdin s = line :: rest ->
  lower line = "quit" ->
  Rest.while_loop rest_rt endpoint key (S (S fuel)) s
  = (after (consumed s line rest) [EvPrompt Rest.prompt], Ok (Some tt))
  /\ Sdk.while_loop sdk_rt detector (S (S fuel)) s
     = (after (consumed s line rest) [EvPrompt Sdk.prompt], Ok (Some tt)).
Proof.
  intros Hcond Hin Hq.
  assert (Hstop : forall p, Rest.loop_cond (after (consumed s line rest) [EvPrompt p])
                            = false).
  { intros p. unfold Rest.loop_cond. cbn [user_text after consumed].
    rewrite Hq. reflexivity. }
  split.
  - rewrite (rest_while_loop_step rest_rt endpoint key _ s Hcond).
    erewrite bind_ok.
    2: { unfold Rest.loop_body. apply try_ok.
         exact (rest_loop_try_quit rest_rt endpoint key s line rest Hin Hq). }
    apply rest_while_loop_stop, Hstop.
  - rewrite (sdk_while_loop_step sdk_rt detector _ s Hcond).
    erewrite bind_ok.
    2: { unfold Sdk.loop_body. apply try_ok.
         exact (sdk_loop_try_quit sdk_rt detector s line rest Hin Hq). }
    apply sdk_while_loop_stop, Hstop.
Qed.

(** The amended C3 at the line QUIT. *)
Lemma sentinel_line_ends_loop_witness :
  Rest.while_loop Scenario.rt_english "https://test-endpoint.com" "test-key" 2
    (Scenario.initial ["QUIT"])
  = (after (consumed (Scenario.initial ["QUIT"]) "QUIT" []) [EvPrompt Rest.prompt],
     Ok (Some tt))
  /\ Sdk.while_loop Scenario.sdk_english Scenario.detector_ok 2
       (Scenario.initial ["QUIT"])
     = (after (consumed (Scenario.initial ["QUIT"]) "QUIT" []) [EvPrompt Sdk.prompt],
        Ok (Some tt)).
Proof.
  apply (sentinel_line_ends_loop Scenario.rt_english
           "https://test-endpoint.com" "test-key"
           Scenario.sdk_english Scenario.detector_ok
           (Scenario.initial ["QUIT"]) "QUIT" [] 0).
  - reflexivity.
  - reflexivity.
  - reflexivity.
Defined.

(** C6: in both scripts, a pass of the loop whose [try] suite raises,
    be it the validator that rejects the line, the client that fails,
    or any other exception, prints the error after the prefix of its
    kind and ends normally; the loop then goes through its body again,
    which starts by writing the prompt.  A failure to load the
    configuration is printed and raised out of [main], and nothing else
    makes [main] raise. *)
Theorem loop_recovers_from_every_error :
  (forall rt endpoint key s s1 e,
     Rest.loop_cond s = true ->
     Rest.loop_try rt endpoint key s = (s1, Raise e) ->
     Spec.recovers Rest.loop_cond (Rest.loop_body rt endpoint key)
       (Rest.while_loop rt endpoint key) Rest.prompt
       (match exn_cls e with
        | InputError => "Input error: "
        | APIError => "API error: "
        | _ => "Unexpected error: "
        end) s s1 e)
  /\ (forall rt detector s s1 e,
        Sdk.loop_cond s = true ->
        Sdk.loop_try rt detector s = (s1, Raise e) ->
        Spec.recovers Sdk.loop_cond (Sdk.loop_body rt detector)
          (Sdk.while_loop rt detector) Sdk.prompt
          (match exn_cls e with
           | InputError => "Input error: "
           | AzureError => "Azure service error: "
           | _ => "Unexpected error: "
           end) s s1 e)
  /\ (forall rt endpoint key s line rest e,
        stdin s = line :: rest -> lower line <> "quit" ->
        Rest.validate_text line = Raise e ->
        exn_cls e = InputError
        /\ exists s1, Rest.loop_try rt endpoint key s = (s1, Raise e))
  /\ (forall rt detector s line rest e,
        stdin s = line :: rest -> lower line <> "quit" ->
        Sdk.TextValidator.validate line = Raise e ->
        exn_cls e = InputError
        /\ exists s1, Sdk.loop_try rt detector s = (s1, Raise e))
  /\ (forall rt endpoint key s line rest e,
        stdin s = line :: rest -> lower line <> "quit" ->
        Rest.validate_text line = Ok tt ->
        snd (Rest.GetLanguage rt endpoint key line
               (after (consumed s line rest)
                  [EvPrompt Rest.prompt; EvCall "validate_text" line;
                   EvCall "GetLanguage" line])) = Raise e ->
        exn_cls e = APIError
        /\ exists s1, Rest.loop_try rt endpoint key s = (s1, Raise e))
  /\ (forall rt detector s line rest e,
        stdin s = line :: rest -> lower line <> "quit" ->
        Sdk.TextValidator.validate line = Ok tt ->
        snd (Sdk.detect_language rt detector line
               (after (consumed s line rest)
                  [EvPrompt Sdk.prompt; EvCall "TextValidator.validate" line;
                   EvCall "detect_language" line])) = Raise e ->
        exists s1, Sdk.loop_try rt detector s = (s1, Raise e))
  /\ (forall rt environ fuel s e,
        Rest.validate_configuration environ = Raise e ->
        Rest.main rt environ fuel s
        = (after s [EvPrint ("Configuration error: " +:+ exn_str e)], Raise e))
  /\ (forall rt environ fuel s e,
        Sdk.from_env environ = Raise e ->
        Sdk.main rt environ fuel s
        = (after s [EvPrint ("Configuration error: " +:+ exn_str e)], Raise e))
  /\ (forall rt environ fuel s e,
        snd (Rest.main rt environ fuel s) = Raise e ->
        Rest.validate_configuration environ = Raise e)
  /\ (forall rt environ fuel s e,
        snd (Sdk.main rt environ fuel s) = Raise e ->
        Sdk.from_env environ = Raise e).
Proof.
  split; [exact rest_loop_body_recovers|].
  split; [exact sdk_loop_body_recovers|].
  split.
  { intros rt endpoint key s line rest e Hin Hq Hv.
    split; [exact (validate_text_raises line e Hv)|].
    eexists. exact (rest_loop_try_invalid rt endpoint key s line rest e Hin Hq Hv). }
  split.
  { intros rt detector s line rest e Hin Hq Hv. split.
    - apply (validate_text_raises line). rewrite <- validate_variants_agree. exact Hv.
    - eexists. exact (sdk_loop_try_invalid rt detector s line rest e Hin Hq Hv). }
  split.
  { intros rt endpoint key s line rest e Hin Hq Hv Hg.
    split; [exact (GetLanguage_raises _ _ _ _ _ _ Hg)|].
    rewrite (rest_loop_try_client rt endpoint key s line rest Hin Hq Hv).
    rewrite after_after. cbn [app]. rewrite Hg. eauto. }
  split.
  { intros rt detector s line rest e Hin Hq Hv Hd.
    rewrite (sdk_loop_try_client rt detector s line rest Hin Hq Hv).
    rewrite after_after. cbn [app]. rewrite Hd. eauto. }
  split; [exact rest_main_configuration_error|].
  split; [exact sdk_main_configuration_error|].
  split; [exact rest_main_raises_only_configuration|].
  exact sdk_main_raises_only_configuration.
Qed.

(** C6 at a line of one blank, which the validator of rest-client.py
    rejects. *)
Lemma loop_recovers_from_every_error_witness :
  Spec.recovers Rest.loop_cond
    (Rest.loop_body Scenario.rt_english "https://test-endpoint.com" "test-key")
    (Rest.while_loop Scenario.rt_english "https://test-endpoint.com" "test-key")
    Rest.prompt "Input error: "
    (Scenario.initial [" "])
    (State " " [] [EvPrompt Rest.prompt; EvCall "validate_text" " "] 0)
    (Exn InputError "Text cannot be empty").
Proof.
  apply (proj1 loop_recovers_from_every_error Scenario.rt_english
           "https://test-endpoint.com" "test-key" (Scenario.initial [" "])
           (State " " [] [EvPrompt Rest.prompt; EvCall "validate_text" " "] 0)
           (Exn InputError "Text cannot be empty")).
  - reflexivity.
  - vm_compute. reflexivity.
Defined.

(** C10: when the SDK client returns an empty list, [detect_language]
    raises [IndexError] and not [AzureError]; in the loop that
    exception reaches the last [except] clause, is printed as an
    unexpected error, and the loop goes on. *)
Theorem empty_result_list_is_recovered :
  (forall rt self text s,
     Sdk.client_detect_language rt (exchanges s) (Sdk.client self) [text] = Ok [] ->
     snd (Sdk.detect_language rt self text s)
       = Raise (Exn IndexError "list index out of range")
     /\ IndexError <> AzureError)
  /\ (forall rt detector s line rest,
        Sdk.loop_cond s = true ->
        stdin s = line :: rest -> lower line <> "quit" ->
        Sdk.TextValidator.validate line = Ok tt ->
        Sdk.client_detect_language rt (exchanges s) (Sdk.client detector) [line]
          = Ok [] ->
        Spec.recovers Sdk.loop_cond (Sdk.loop_body rt detector)
          (Sdk.while_loop rt detector) Sdk.prompt "Unexpected error: " s
          (exchanged
             (after (consumed s line rest)
                [EvPrompt Sdk.prompt; EvCall "TextValidator.validate" line;
                 EvCall "detect_language" line; EvSdkCall [line]]))
          (Exn IndexError "list index out of range")).
Proof.
  split.
  - intros rt self text s H.
    rewrite (detect_language_empty rt self text s H).
    split; [reflexivity | discriminate].
  - intros rt detector s line rest Hcond Hin Hq Hv H.
    apply (sdk_loop_body_recovers rt detector s _
             (Exn IndexError "list index out of range") Hcond).
    rewrite (sdk_loop_try_client rt detector s line rest Hin Hq Hv).
    rewrite detect_language_empty by exact H.
    cbn [snd]. rewrite !after_after. reflexivity.
Qed.

(** C10 at the line Hello and an SDK client that returns no result. *)
Lemma empty_result_list_is_recovered_witness :
  Spec.recovers Sdk.loop_cond
    (Sdk.loop_body Scenario.sdk_empty Scenario.detector_ok)
    (Sdk.while_loop Scenario.sdk_empty Scenario.detector_ok)
    Sdk.prompt "Unexpected error: "
    (Scenario.initial ["Hello"])
    (exchanged
       (after (consumed (Scenario.initial ["Hello"]) "Hello" [])
          [EvPrompt Sdk.prompt; EvCall "TextValidator.validate" "Hello";
           EvCall "detect_language" "Hello"; EvSdkCall ["Hello"]]))
    (Exn IndexError "list index out of range").
Proof.
  apply (proj2 empty_result_list_is_recovered Scenario.sdk_empty
           Scenario.detector_ok (Scenario.initial ["Hello"]) "Hello" []).
  - reflexivity.
  - reflexivity.
  - vm_compute. discriminate.
  - vm_compute. reflexivity.
  - reflexivity.
Defined.

(** * Further properties of the code *)

(** ** How the raw-HTTP client fails *)

Section GetLanguageErrors.
Variable rt : Rest.runtime.
Variables endpoint key text : string.

Abbreviation request := (Rest.language_request endpoint key text).
Abbreviation sent := (Rest.sent endpoint key text).

(** What subscripting raises is a [KeyError] or a [TypeError]. *)
Lemma getitem_raises v k e :
  getitem v k = Raise e -> exn_cls e = KeyError \/ exn_cls e = TypeError.
Proof.
  destruct v; simpl; try (intros [= <-]; auto).
  destruct (dict_get d k); [discriminate | intros [= <-]; auto].
Qed.

Lemma language_name_raises doc e :
  Rest.language_name doc = Raise e -> exn_cls e = KeyError \/ exn_cls e = TypeError.
Proof.
  unfold Rest.language_name.
  destruct (getitem doc "detectedLanguage") as [d|e'] eqn:H.
  - apply getitem_raises.
  - intros [= <-]. exact (getitem_raises _ _ _ H).
Qed.

(** The documents before the first one without a language name are
    printed; the loop stops at that one. *)
Lemma for_each_print_document_stops good names bad rest e s :
  Forall2 (fun doc nm => Rest.language_name doc = Ok nm) good names ->
  Rest.language_name bad = Raise e ->
  for_each (good ++ bad :: rest) Rest.print_document s
  = (after s (map (fun nm => EvPrint (newline +:+ "Language: " +:+ str nm)) names),
     Raise e).
Proof.
  intros H Hbad. revert s. induction H as [|doc nm good names Hd _ IH]; intros s.
  - cbn [app for_each map]. unfold Rest.print_document at 1.
    unfold bind at 1 2, lift. rewrite Hbad, after_nil. reflexivity.
  - cbn [app for_each map]. unfold Rest.print_document at 1.
    unfold bind at 1 2, lift, Rest.print_language. rewrite Hd.
    rewrite emit_after, IH, after_after. reflexivity.
Qed.

(** The body of [GetLanguage] raised [e]: the matching [except] clause
    raises the [APIError]. *)
Lemma GetLanguage_wraps_exactly (m : M pyval) s s' e :
  m s = (s', Raise e) ->
  try_except m
    (fun ex =>
       match exn_cls ex with
       | JSONDecodeError =>
           raise (Exn APIError ("Failed to parse API response: " +:+ exn_str ex))
       | HTTPException =>
           raise (Exn APIError ("HTTP error occurred: " +:+ exn_str ex))
       | _ =>
           raise (Exn APIError ("Unexpected error during API call: " +:+ exn_str ex))
       end) s
  = (s', Raise (Exn APIError
                  (match exn_cls e with
                   | JSONDecodeError => "Failed to parse API response: "
                   | HTTPException => "HTTP error occurred: "
                   | _ => "Unexpected error during API call: "
                   end +:+ exn_str e))).
Proof.
  intros H. rewrite (try_raise _ _ _ _ _ H). destruct (exn_cls e); reflexivity.
Qed.

(** The exchange itself raised. *)
Lemma GetLanguage_exchange_raises s e :
  Rest.https_connection rt (Rest.uri endpoint) = Ok tt ->
  Rest.http_exchange rt (exchanges s) request = Raise e ->
  Rest.GetLanguage rt endpoint key text s
  = (sent s,
     Raise (Exn APIError
              (match exn_cls e with
               | JSONDecodeError => "Failed to parse API response: "
               | HTTPException => "HTTP error occurred: "
               | _ => "Unexpected error during API call: "
               end +:+ exn_str e))).
Proof.
  intros Hc Hx. unfold Rest.GetLanguage. apply GetLanguage_wraps_exactly.
  unfold bind at 1. rewrite emit_after.
  unfold bind at 1. unfold lift at 1. rewrite Hc.
  unfold bind at 1. rewrite exchange_after. cbn [exchanges after].
  rewrite Hx. fold (after s [EvPrintJson (Rest.jsonBody text)]).
  rewrite after_after. reflexivity.
Qed.

(** The connection object could not be made. *)
Lemma GetLanguage_connection_raises s e :
  Rest.https_connection rt (Rest.uri endpoint) = Raise e ->
  Rest.GetLanguage rt endpoint key text s
  = (after s [EvPrintJson (Rest.jsonBody text)],
     Raise (Exn APIError
              (match exn_cls e with
               | JSONDecodeError => "Failed to parse API response: "
               | HTTPException => "HTTP error occurred: "
               | _ => "Unexpected error during API call: "
               end +:+ exn_str e))).
Proof.
  intros Hc. unfold Rest.GetLanguage. apply GetLanguage_wraps_exactly.
  unfold bind at 1. rewrite emit_after.
  unfold bind at 1. unfold lift at 1. rewrite Hc. reflexivity.
Qed.

(** A 200 response, handled up to the point where the handling raises
    [e] in state [s1]. *)
Lemma GetLanguage_handling_raises s resp s1 e :
  Rest.https_connection rt (Rest.uri endpoint) = Ok tt ->
  Rest.http_exchange rt (exchanges s) request = Ok resp ->
  status resp = 200%Z ->
  bind (lift (Rest.json_loads rt (data resp)))
    (fun results0 =>
       bind (emit (EvPrintJson results0))
         (fun _ =>
            bind (lift (getitem results0 "documents"))
              (fun documents =>
                 bind (lift (iterate documents))
                   (fun items => for_each items Rest.print_document)))) (sent s)
  = (s1, Raise e) ->
  Rest.GetLanguage rt endpoint key text s
  = (s1,
     Raise (Exn APIError
              (match exn_cls e with
               | JSONDecodeError => "Failed to parse API response: "
               | HTTPException => "HTTP error occurred: "
               | _ => "Unexpected error during API call: "
               end +:+ exn_str e))).
Proof.
  intros Hc Hx Hst Hh. unfold Rest.GetLanguage. apply GetLanguage_wraps_exactly.
  rewrite (GetLanguage_exchange rt endpoint key text s resp _ Hc Hx). cbv beta.
  rewrite Hst. cbn [Z.eqb Pos.eqb].
  unfold bind at 1. rewrite Hh. reflexivity.
Qed.

End GetLanguageErrors.

(** X1: a 200 response whose body [json.loads] rejects makes the
    raw-HTTP client raise an [APIError] that says the response could not
    be parsed and quotes the parser's message; nothing is printed after
    the request and the connection is left open. *)
Theorem malformed_body_is_api_error
    (rt : Rest.runtime) (endpoint key text : string) (s : state)
    (resp : response) (e : exn) :
  Rest.https_connection rt (Rest.uri endpoint) = Ok tt ->
  Rest.http_exchange rt (exchanges s) (Rest.language_request endpoint key text)
    = Ok resp ->
  status resp = 200%Z ->
  Rest.json_loads rt (data resp) = Raise e ->
  exn_cls e = JSONDecodeError ->
  Rest.GetLanguage rt endpoint key text s
  = (Rest.sent endpoint key text s,
     Raise (Exn APIError ("Failed to parse API response: " +:+ exn_str e))).
Proof.
  intros Hc Hx Hst Hj Hcls.
  rewrite (GetLanguage_handling_raises rt endpoint key text s resp
             (Rest.sent endpoint key text s) e Hc Hx Hst).
  - rewrite Hcls. reflexivity.
  - unfold bind at 1, lift. rewrite Hj. reflexivity.
Qed.

(** X1 at a 200 response whose body is the text Error message. *)
Lemma malformed_body_is_api_error_witness :
  Rest.GetLanguage (Scenario.answering (Response 200 "Error message"))
    "https://test-endpoint.com" "test-key" "Hello" (Scenario.initial [])
  = (Rest.sent "https://test-endpoint.com" "test-key" "Hello" (Scenario.initial []),
     Raise (Exn APIError
              ("Failed to parse API response: "
                 +:+ "Expecting value: line 1 column 1 (char 0)"))).
Proof.
  apply (malformed_body_is_api_error
           (Scenario.answering (Response 200 "Error message"))
           "https://test-endpoint.com" "test-key" "Hello" (Scenario.initial [])
           (Response 200 "Error message")
           (Exn JSONDecodeError "Expecting value: line 1 column 1 (char 0)")).
  - reflexivity.
  - reflexivity.
  - reflexivity.
  - vm_compute. reflexivity.
  - reflexivity.
Defined.

(** X2: when the connection object cannot be made, or the exchange
    itself raises, the raw-HTTP client raises an [APIError] whose text
    starts with HTTP error occurred: for an [HTTPException] and with
    Unexpected error during API call: for any other exception, followed
    by the text of that exception; when the connection object cannot be
    made, nothing is sent. *)
Theorem transport_failure_is_api_error
    (rt : Rest.runtime) (endpoint key text : string) (s : state) (e : exn) :
  exn_cls e <> JSONDecodeError ->
  Rest.https_connection rt (Rest.uri endpoint) = Raise e
  \/ (Rest.https_connection rt (Rest.uri endpoint) = Ok tt
      /\ Rest.http_exchange rt (exchanges s)
           (Rest.language_request endpoint key text) = Raise e) ->
  snd (Rest.GetLanguage rt endpoint key text s)
  = Raise (Exn APIError
             ((if exn_class_is_http (exn_cls e)
               then "HTTP error occurred: "
               else "Unexpected error during API call: ") +:+ exn_str e))
  /\ (Rest.https_connection rt (Rest.uri endpoint) = Raise e ->
      fst (Rest.GetLanguage rt endpoint key text s)
      = after s [EvPrintJson (Rest.jsonBody text)]).
Proof.
  intros Hcls [Hc|[Hc Hx]].
  - rewrite (GetLanguage_connection_raises rt endpoint key text s e Hc).
    split; [|reflexivity]. cbn [snd].
    destruct (exn_cls e); try reflexivity. contradiction.
  - rewrite (GetLanguage_exchange_raises rt endpoint key text s e Hc Hx).
    split; [|rewrite Hc; discriminate]. cbn [snd].
    destruct (exn_cls e); try reflexivity. contradiction.
Qed.

(** X2 at a service that drops the connection. *)
Lemma transport_failure_is_api_error_witness :
  snd (Rest.GetLanguage Scenario.rt_disconnecting
         "https://test-endpoint.com" "test-key" "Hello" (Scenario.initial []))
  = Raise (Exn APIError
             ("HTTP error occurred: "
                +:+ "Remote end closed connection without response")).
Proof.
  apply (transport_failure_is_api_error Scenario.rt_disconnecting
           "https://test-endpoint.com" "test-key" "Hello" (Scenario.initial [])
           (Exn HTTPException "Remote end closed connection without response")).
  - discriminate.
  - right. split; reflexivity.
Defined.

(** X3: whatever the service, the parser and the input do, the raw-HTTP
    client hands its caller nothing but [None] and lets no exception
    out but an [APIError]. *)
Theorem GetLanguage_none_or_api_error
    (rt : Rest.runtime) (endpoint key text : string) (s : state) :
  (forall v, snd (Rest.GetLanguage rt endpoint key text s) = Ok v -> v = PNone)
  /\ (forall e,
        snd (Rest.GetLanguage rt endpoint key text s) = Raise e ->
        exn_cls e = APIError).
Proof.
  destruct (GetLanguage_returns_none rt endpoint key text s) as [H|[msg H]];
    rewrite H; split.
  - intros v [= <-]. reflexivity.
  - discriminate.
  - discriminate.
  - intros e [= <-]. reflexivity.
Qed.

(** X4: a 200 response whose JSON value cannot be subscripted with
    documents (an object without that key, or a value that is not an
    object) makes the raw-HTTP client raise an [APIError] after the
    value was echoed; for an object without the key, the text of the
    error ends with the quoted key. *)
Theorem missing_documents_is_api_error
    (rt : Rest.runtime) (endpoint key text : string) (s : state)
    (resp : response) (results : pyval) (e : exn) :
  Rest.https_connection rt (Rest.uri endpoint) = Ok tt ->
  Rest.http_exchange rt (exchanges s) (Rest.language_request endpoint key text)
    = Ok resp ->
  status resp = 200%Z ->
  Rest.json_loads rt (data resp) = Ok results ->
  getitem results "documents" = Raise e ->
  Rest.GetLanguage rt endpoint key text s
  = (after (Rest.sent endpoint key text s) [EvPrintJson results],
     Raise (Exn APIError ("Unexpected error during API call: " +:+ exn_str e)))
  /\ (forall d, results = PDict d -> exn_str e = "'documents'").
Proof.
  intros Hc Hx Hst Hj Hd. split.
  - rewrite (GetLanguage_handling_raises rt endpoint key text s resp
               (after (Rest.sent endpoint key text s) [EvPrintJson results]) e
               Hc Hx Hst).
    + destruct (getitem_raises _ _ _ Hd) as [-> | ->]; reflexivity.
    + unfold bind at 1, lift. rewrite Hj.
      unfold bind at 1. rewrite emit_after.
      unfold bind at 1. rewrite Hd. reflexivity.
  - intros d ->. simpl in Hd.
    destruct (dict_get d "documents"); [discriminate|].
    injection Hd as <-. vm_compute. reflexivity.
Qed.

(** X4 at a 200 response whose body is the empty object. *)
Lemma missing_documents_is_api_error_witness :
  Rest.GetLanguage Scenario.rt_empty_object
    "https://test-endpoint.com" "test-key" "Hello" (Scenario.initial [])
  = (after (Rest.sent "https://test-endpoint.com" "test-key" "Hello"
              (Scenario.initial [])) [EvPrintJson (PDict [])],
     Raise (Exn APIError ("Unexpected error during API call: " +:+ "'documents'"))).
Proof.
  apply (proj1 (missing_documents_is_api_error Scenario.rt_empty_object
           "https://test-endpoint.com" "test-key" "Hello" (Scenario.initial [])
           (Response 200 "{}") (PDict []) (Exn KeyError "'documents'")
           eq_refl eq_refl eq_refl eq_refl eq_refl)).
Defined.

(** X5: on a 200 response, when a document has no language name, the
    names of the documents before it have been printed, none after it
    is, and the raw-HTTP client raises an [APIError]: what was printed
    is not taken back. *)
Theorem output_before_error_is_kept
    (rt : Rest.runtime) (endpoint key text : string) (s : state)
    (resp : response) (results : pyval)
    (good : list pyval) (names : list pyval) (bad : pyval) (rest : list pyval)
    (e : exn) :
  Rest.https_connection rt (Rest.uri endpoint) = Ok tt ->
  Rest.http_exchange rt (exchanges s) (Rest.language_request endpoint key text)
    = Ok resp ->
  status resp = 200%Z ->
  Rest.json_loads rt (data resp) = Ok results ->
  getitem results "documents" = Ok (PList (good ++ bad :: rest)) ->
  Forall2 (fun doc nm => Rest.language_name doc = Ok nm) good names ->
  Rest.language_name bad = Raise e ->
  Rest.GetLanguage rt endpoint key text s
  = (after (Rest.sent endpoint key text s)
       (EvPrintJson results
          :: map (fun nm => EvPrint (newline +:+ "Language: " +:+ str nm)) names),
     Raise (Exn APIError ("Unexpected error during API call: " +:+ exn_str e))).
Proof.
  intros Hc Hx Hst Hj Hd Hn Hbad.
  rewrite (GetLanguage_handling_raises rt endpoint key text s resp
             (after (Rest.sent endpoint key text s)
                (EvPrintJson results
                   :: map (fun nm => EvPrint (newline +:+ "Language: " +:+ str nm))
                        names)) e Hc Hx Hst).
  - destruct (language_name_raises _ _ Hbad) as [-> | ->]; reflexivity.
  - rewrite (GetLanguage_documents rt _ resp results _ Hj Hd).
    rewrite (for_each_print_document_stops good names bad rest e _ Hn Hbad).
    rewrite after_after. reflexivity.
Qed.

(** X5 at a 200 response with an English document followed by an empty
    one. *)
Lemma output_before_error_is_kept_witness :
  Rest.GetLanguage Scenario.rt_second_document_empty
    "https://test-endpoint.com" "test-key" "Hello" (Scenario.initial [])
  = (after (Rest.sent "https://test-endpoint.com" "test-key" "Hello"
              (Scenario.initial []))
       (EvPrintJson Scenario.second_document_empty_value
          :: map (fun nm => EvPrint (newline +:+ "Language: " +:+ str nm))
               [PStr "English"]),
     Raise (Exn APIError
              ("Unexpected error during API call: " +:+ "'detectedLanguage'"))).
Proof.
  apply (output_before_error_is_kept Scenario.rt_second_document_empty
           "https://test-endpoint.com" "test-key" "Hello" (Scenario.initial [])
           (Response 200 Scenario.second_document_empty_body)
           Scenario.second_document_empty_value
           [PDict [("detectedLanguage", PDict [("name", PStr "English")])]]
           [PStr "English"] (PDict []) []
           (Exn KeyError "'detectedLanguage'")).
  - reflexivity.
  - reflexivity.
  - reflexivity.
  - vm_compute. reflexivity.
  - vm_compute. reflexivity.
  - constructor; [vm_compute; reflexivity | constructor].
  - vm_compute. reflexivity.
Defined.

Section GetLanguageClose.
Variable rt : Rest.runtime.
Variables endpoint key text : string.

Lemma prints_are_not_close evs :
  Forall (fun ev => exists t, ev = EvPrint t) evs ->
  Forall (fun ev => is_close ev = false) evs.
Proof.
  induction 1 as [|ev evs [t ->] _ IH]; constructor; [reflexivity | exact IH].
Qed.

(** What [GetLanguage] adds to what happened: when it returns, a list
    of events without [conn.close()] and then that event; when it
    raises, a list of events without it. *)
Lemma GetLanguage_close s :
  exists evs,
    Forall (fun ev => is_close ev = false) evs
    /\ ((Rest.GetLanguage rt endpoint key text s
         = (State (user_text s) (stdin s) (trace s ++ evs ++ [EvClose])%list
              (S (exchanges s)), Ok PNone))
        \/ exists n msg,
             Rest.GetLanguage rt endpoint key text s
             = (State (user_text s) (stdin s) (trace s ++ evs)%list n,
                Raise (Exn APIError msg))).
Proof.
  destruct (Rest.https_connection rt (Rest.uri endpoint)) as [[]|e] eqn:Hc.
  2: { destruct (GetLanguage_no_connection rt endpoint key text s e Hc) as (msg & ->).
       exists [EvPrintJson (Rest.jsonBody text)].
       split; [repeat constructor|]. right. eexists _, msg. reflexivity. }
  destruct (Rest.http_exchange rt (exchanges s)
              (Rest.language_request endpoint key text)) as [resp|e] eqn:Hx.
  2: { rewrite (GetLanguage_exchange_raises rt endpoint key text s e Hc Hx).
       eexists. split; [|right; eexists _, _; reflexivity]. repeat constructor. }
  destruct (Z.eqb_spec (status resp) 200) as [Hst|Hst].
  2: { rewrite (GetLanguage_failure rt endpoint key text s resp Hc Hx Hst).
       eexists. split; [|right; eexists _, _; reflexivity]. repeat constructor. }
  assert (Hwrap : forall s1 e evs,
            s1 = after (Rest.sent endpoint key text s) evs ->
            Forall (fun ev => is_close ev = false) evs ->
            bind (lift (Rest.json_loads rt (data resp)))
              (fun results0 =>
                 bind (emit (EvPrintJson results0))
                   (fun _ =>
                      bind (lift (getitem results0 "documents"))
                        (fun documents =>
                           bind (lift (iterate documents))
                             (fun items => for_each items Rest.print_document))))
              (Rest.sent endpoint key text s) = (s1, Raise e) ->
            exists evs0,
              Forall (fun ev => is_close ev = false) evs0
              /\ exists n msg,
                   Rest.GetLanguage rt endpoint key text s
                   = (State (user_text s) (stdin s) (trace s ++ evs0)%list n,
                      Raise (Exn APIError msg))).
  { intros s1 e evs -> Hevs Hh.
    rewrite (GetLanguage_handling_raises rt endpoint key text s resp _ e Hc Hx Hst Hh).
    exists (EvPrintJson (Rest.jsonBody text)
              :: EvRequest (Rest.language_request endpoint key text) :: evs).
    split; [repeat constructor; exact Hevs|].
    eexists _, _. unfold after, Rest.sent, exchanged. cbn.
    rewrite <- app_assoc. reflexivity. }
  destruct (Rest.json_loads rt (data resp)) as [results|e] eqn:Hj.
  2: { destruct (Hwrap (Rest.sent endpoint key text s) e []) as (evs0 & H0 & H1).
       - rewrite after_nil. reflexivity.
       - constructor.
       - reflexivity.
       - exists evs0. split; [exact H0 | right; exact H1]. }
  destruct (getitem results "documents") as [documents|e] eqn:Hd.
  2: { destruct (Hwrap (after (Rest.sent endpoint key text s) [EvPrintJson results])
                   e [EvPrintJson results]) as (evs0 & H0 & H1).
       - reflexivity.
       - repeat constructor.
       - unfold bind at 1, lift. unfold bind at 1. rewrite emit_after.
         unfold bind at 1. rewrite Hd. reflexivity.
       - exists evs0. split; [exact H0 | right; exact H1]. }
  destruct (iterate documents) as [items|e] eqn:Hi.
  2: { destruct (Hwrap (after (Rest.sent endpoint key text s) [EvPrintJson results])
                   e [EvPrintJson results]) as (evs0 & H0 & H1).
       - reflexivity.
       - repeat constructor.
       - unfold bind at 1, lift. unfold bind at 1. rewrite emit_after.
         unfold bind at 1. rewrite Hd. unfold bind at 1. rewrite Hi. reflexivity.
       - exists evs0. split; [exact H0 | right; exact H1]. }
  destruct (for_each_print_document_extends items
              (after (Rest.sent endpoint key text s) [EvPrintJson results]))
    as (evs & r & Hf & Hevs).
  apply prints_are_not_close in Hevs.
  assert (Hh :
    bind (lift (Rest.json_loads rt (data resp)))
      (fun results0 =>
         bind (emit (EvPrintJson results0))
           (fun _ =>
              bind (lift (getitem results0 "documents"))
                (fun documents =>
                   bind (lift (iterate documents))
                     (fun items => for_each items Rest.print_document))))
      (Rest.sent endpoint key text s)
    = (after (Rest.sent endpoint key text s) (EvPrintJson results :: evs), r)).
  { unfold bind at 1, lift. rewrite Hj. unfold bind at 1. rewrite emit_after.
    unfold bind at 1. rewrite Hd. unfold bind at 1. rewrite Hi.
    rewrite Hf, after_after. reflexivity. }
  destruct r as [[]|e].
  - exists (EvPrintJson (Rest.jsonBody text)
              :: EvRequest (Rest.language_request endpoint key text)
              :: EvPrintJson results :: evs).
    split; [repeat constructor; exact Hevs|]. left.
    unfold Rest.GetLanguage. apply try_ok.
    rewrite (GetLanguage_exchange rt endpoint key text s resp _ Hc Hx). cbv beta.
    rewrite Hst. cbn [Z.eqb Pos.eqb].
    unfold bind at 1. rewrite Hh.
    unfold bind at 1. rewrite emit_after. unfold ret.
    rewrite after_after. unfold after, Rest.sent, exchanged. cbn.
    rewrite <- !app_assoc. reflexivity.
  - destruct (Hwrap _ e (EvPrintJson results :: evs) eq_refl) as (evs0 & H0 & H1).
    + repeat constructor. exact Hevs.
    + rewrite Hj in Hh. exact Hh.
    + exists evs0. split; [exact H0 | right; exact H1].
Qed.

End GetLanguageClose.

(** X6: the raw-HTTP client closes its connection exactly when it
    returns: when it returns, [conn.close()] is the last thing it did
    and it did it once; when it raises, whatever the failure, it has not
    closed the connection. *)
Theorem connection_closed_only_on_success
    (rt : Rest.runtime) (endpoint key text : string) (s : state) :
  exists evs,
    trace (fst (Rest.GetLanguage rt endpoint key text s)) = (trace s ++ evs)%list
    /\ (forall v,
          snd (Rest.GetLanguage rt endpoint key text s) = Ok v ->
          exists evs0,
            evs = (evs0 ++ [EvClose])%list
            /\ Forall (fun ev => is_close ev = false) evs0)
    /\ (forall e,
          snd (Rest.GetLanguage rt endpoint key text s) = Raise e ->
          Forall (fun ev => is_close ev = false) evs).
Proof.
  destruct (GetLanguage_close rt endpoint key text s)
    as (evs & Hevs & [H|(n & msg & H)]); rewrite H.
  - exists (evs ++ [EvClose])%list. split; [reflexivity|]. split.
    + intros v _. exists evs. split; [reflexivity | exact Hevs].
    + discriminate.
  - exists evs. split; [reflexivity|]. split.
    + discriminate.
    + intros e _. exact Hevs.
Qed.

(** ** The host the request goes to *)

Lemma append_nonempty_r a b : b <> "" -> a +:+ b <> "".
Proof.
  destruct a; [auto|]. rewrite append_cons. discriminate.
Qed.

Lemma rstrip_with_append p a b :
  rstrip_with p b <> "" -> rstrip_with p (a +:+ b) = a +:+ rstrip_with p b.
Proof.
  intros Hb. induction a as [|c a IH]; [reflexivity|].
  rewrite !append_cons. cbn [rstrip_with]. rewrite IH.
  pose proof (append_nonempty_r a _ Hb) as Hne.
  destruct (a +:+ rstrip_with p b); [contradiction | reflexivity].
Qed.

(** One more closing slash changes nothing. *)
Lemma rstrip_slash_append s : rstrip "/" (s +:+ "/") = rstrip "/" s.
Proof.
  unfold rstrip. induction s as [|c s IH]; [reflexivity|].
  rewrite append_cons. cbn [rstrip_with]. rewrite IH. reflexivity.
Qed.

(** Where [old] does not occur, nothing is replaced. *)
Lemma replace_absent old new s :
  contains old s = false -> replace old new s = s.
Proof.
  unfold replace. induction s as [|c s IH].
  - cbn [contains replace_from]. destruct old; [discriminate | reflexivity].
  - cbn [contains]. intros H. apply orb_false_elim in H as [Hp Hc].
    cbn [replace_from]. rewrite Hp, (IH Hc). reflexivity.
Qed.

Lemma replace_scheme rest :
  replace "https://" "" ("https://" +:+ rest) = replace "https://" "" rest.
Proof. destruct rest; unfold replace; vm_compute; reflexivity. Qed.

(** X7: for an endpoint made of https:// and a host, where the host is
    not empty, does not end with a slash and does not itself hold
    https://, the request goes to exactly that host, with or without a
    closing slash on the endpoint; and one more closing slash on any
    endpoint never changes the host. *)
Theorem host_of_endpoint (host : string) :
  host <> "" ->
  rstrip "/" host = host ->
  contains "https://" host = false ->
  Rest.uri ("https://" +:+ host) = host
  /\ Rest.uri ("https://" +:+ host +:+ "/") = host
  /\ (forall endpoint, Rest.uri (endpoint +:+ "/") = Rest.uri endpoint).
Proof.
  intros Hne Hstrip Hc.
  assert (H : Rest.uri ("https://" +:+ host) = host).
  { unfold Rest.uri, rstrip in *. rewrite rstrip_with_append.
    - rewrite Hstrip, replace_scheme. apply replace_absent, Hc.
    - rewrite Hstrip. exact Hne. }
  assert (Hslash : forall endpoint, Rest.uri (endpoint +:+ "/") = Rest.uri endpoint).
  { intros endpoint. unfold Rest.uri. rewrite rstrip_slash_append. reflexivity. }
  split; [exact H|]. split; [|exact Hslash].
  rewrite <- append_assoc, Hslash. exact H.
Qed.

(** X7 at the endpoint of the unit tests. *)
Lemma host_of_endpoint_witness :
  Rest.uri ("https://" +:+ "test-endpoint.com") = "test-endpoint.com"
  /\ Rest.uri ("https://" +:+ "test-endpoint.com" +:+ "/") = "test-endpoint.com"
  /\ (forall endpoint, Rest.uri (endpoint +:+ "/") = Rest.uri endpoint).
Proof.
  apply (host_of_endpoint "test-endpoint.com").
  - discriminate.
  - vm_compute. reflexivity.
  - vm_compute. reflexivity.
Defined.

(** ** More on the configuration loaders *)

(** X8: the loaders report missing variables before they look at the
    scheme: the error about https:// is raised exactly when both
    variables are set to non-empty texts and the endpoint does not
    start with https://. *)
Theorem scheme_error_needs_both_variables (environ : gmap string string) :
  (Rest.validate_configuration environ = Raise insecure_endpoint
   <-> exists e k,
         environ !! "AI_SERVICE_ENDPOINT" = Some e
         /\ environ !! "AI_SERVICE_KEY" = Some k
         /\ e <> "" /\ k <> "" /\ startswith "https://" e = false)
  /\ (Sdk.from_env environ = Raise insecure_endpoint
      <-> Rest.validate_configuration environ = Raise insecure_endpoint).
Proof.
  split.
  - rewrite validate_configuration_cases.
    destruct (environ !! "AI_SERVICE_ENDPOINT") as [e|];
      destruct (environ !! "AI_SERVICE_KEY") as [k|].
    2-4: (split; [discriminate | intros (e' & k' & H1 & H2 & _); discriminate]).
    destruct (String.eqb_spec e "") as [He|He];
      destruct (String.eqb_spec k "") as [Hk|Hk]; cbn [orb].
    1-3: (split; [discriminate|];
          intros (e' & k' & [= <-] & [= <-] & He' & Hk' & _); contradiction).
    destruct (startswith "https://" e) eqn:Hp.
    + split; [discriminate|].
      intros (e' & k' & [= <-] & [= <-] & _ & _ & Hp'). congruence.
    + split; [|reflexivity]. intros _. exists e, k. auto.
  - rewrite from_env_validate_configuration.
    destruct (Rest.validate_configuration environ) as [[e k]|x].
    + split; discriminate.
    + split; intros [= ->]; reflexivity.
Qed.

(** X9: the loaders read the two variables and nothing else: setting
    any other variable of the environment changes neither what they
    return nor what they raise. *)
Theorem other_variables_are_ignored
    (environ : gmap string string) (name value : string) :
  name <> "AI_SERVICE_ENDPOINT" -> name <> "AI_SERVICE_KEY" ->
  Rest.validate_configuration (<[name := value]> environ)
    = Rest.validate_configuration environ
  /\ Sdk.from_env (<[name := value]> environ) = Sdk.from_env environ.
Proof.
  intros H1 H2.
  rewrite !from_env_validate_configuration, !validate_configuration_cases.
  rewrite !lookup_insert_ne by assumption. split; reflexivity.
Qed.

(** X9 at the environment of the unit tests and the variable PATH. *)
Lemma other_variables_are_ignored_witness :
  Rest.validate_configuration (<["PATH" := "/usr/bin"]> Scenario.environ_ok)
    = Rest.validate_configuration Scenario.environ_ok
  /\ Sdk.from_env (<["PATH" := "/usr/bin"]> Scenario.environ_ok)
     = Sdk.from_env Scenario.environ_ok.
Proof.
  apply (other_variables_are_ignored Scenario.environ_ok "PATH" "/usr/bin").
  - discriminate.
  - discriminate.
Defined.

(** X10: the two scripts validate and load alike: the validator of
    sdk-client.py accepts and rejects the same texts as the one of
    rest-client.py, with the same messages, and [Config.from_env]
    succeeds with the same two values, or raises the same error, as
    [validate_configuration]. *)
Theorem variants_agree :
  (forall text, Sdk.TextValidator.validate text = Rest.validate_text text)
  /\ (forall environ,
        Sdk.from_env environ
        = match Rest.validate_configuration environ with
          | Ok (e, k) => Ok (Sdk.MkConfig e k)
          | Raise x => Raise x
          end).
Proof.
  split; [exact validate_variants_agree | exact from_env_validate_configuration].
Qed.

(** ** The loop, from the first line to the last *)

(** What the two loops share: a loop over [body] that tests the
    condition first, a body that reads one line when there is one and
    calls the service at most once, and that prints the [EOFError]
    when there is none. *)
Section Loop.
Variable body : M unit.
Variable loop : nat -> M (option unit).
Variable prompt : string.

Hypothesis loop_zero : forall s, loop 0 s = (s, Ok None).
Hypothesis loop_step :
  forall fuel s, Rest.loop_cond s = true ->
    loop (S fuel) s = bind body (fun _ => loop fuel) s.
Hypothesis loop_stop :
  forall fuel s, Rest.loop_cond s = false -> loop (S fuel) s = (s, Ok (Some tt)).
Hypothesis body_line :
  forall s line rest, stdin s = line :: rest ->
    exists s', body s = (s', Ok tt)
               /\ stdin s' = rest /\ user_text s' = line
               /\ exchanges s' <= S (exchanges s).
Hypothesis body_eof :
  forall s, stdin s = [] ->
    body s = (after s [EvPrompt prompt;
                       EvPrint "Unexpected error: EOF when reading a line"],
              Ok tt).

Lemma loop_cond_of_line s line :
  user_text s = line -> lower line <> "quit" -> Rest.loop_cond s = true.
Proof.
  intros <- H. unfold Rest.loop_cond. apply String.eqb_neq in H.
  rewrite H. reflexivity.
Qed.

Lemma loop_cond_of_sentinel s line :
  user_text s = line -> lower line = "quit" -> Rest.loop_cond s = false.
Proof.
  intros <- H. unfold Rest.loop_cond. rewrite H. reflexivity.
Qed.

(** The loop returns at the first sentinel line and leaves the lines
    after it unread. *)
Lemma loop_reaches_sentinel pre line rest k s :
  Rest.loop_cond s = true ->
  Forall (fun l => lower l <> "quit") pre ->
  lower line = "quit" ->
  stdin s = (pre ++ line :: rest)%list ->
  exists s', loop (length pre + 2 + k) s = (s', Ok (Some tt))
             /\ stdin s' = rest /\ user_text s' = line.
Proof.
  intros Hcond Hpre Hq. revert s Hcond.
  induction Hpre as [|l pre Hl _ IH]; intros s Hcond Hin; cbn [app length] in *.
  - destruct (body_line s line rest Hin) as (s' & Hb & Hs & Hu & _).
    change (0 + 2 + k) with (S (S k)).
    rewrite (loop_step _ s Hcond), (bind_ok _ _ _ _ _ Hb).
    rewrite (loop_stop _ s' (loop_cond_of_sentinel s' line Hu Hq)). eauto.
  - destruct (body_line s l _ Hin) as (s' & Hb & Hs & Hu & _).
    change (S (length pre) + 2 + k) with (S (length pre + 2 + k)).
    rewrite (loop_step _ s Hcond), (bind_ok _ _ _ _ _ Hb).
    apply IH; [exact (loop_cond_of_line s' l Hu Hl) | exact Hs].
Qed.

(** Without a sentinel line the loop is still running, however many
    passes it is given. *)
Lemma loop_needs_sentinel fuel s :
  Rest.loop_cond s = true ->
  Forall (fun l => lower l <> "quit") (stdin s) ->
  exists s', loop fuel s = (s', Ok None).
Proof.
  revert s. induction fuel as [|fuel IH]; intros s Hcond Hall.
  - rewrite loop_zero. eauto.
  - rewrite (loop_step _ s Hcond).
    destruct (stdin s) as [|l rest] eqn:Hin.
    + rewrite (bind_ok _ _ _ _ _ (body_eof s Hin)).
      apply IH; [exact Hcond | cbn [stdin after]; rewrite Hin; constructor].
    + destruct (body_line s l rest Hin) as (s' & Hb & Hs & Hu & _).
      rewrite (bind_ok _ _ _ _ _ Hb).
      inversion Hall as [|? ? Hl Hrest]; subst.
      apply IH; [exact (loop_cond_of_line s' _ eq_refl Hl) | exact Hrest].
Qed.

(** At the end of standard input every pass writes the prompt and
    prints the [EOFError], and the loop goes on. *)
Lemma loop_at_eof fuel s :
  Rest.loop_cond s = true ->
  stdin s = [] ->
  loop fuel s
  = (after s (concat (repeat [EvPrompt prompt;
                              EvPrint "Unexpected error: EOF when reading a line"]
                        fuel)),
     Ok None).
Proof.
  revert s. induction fuel as [|fuel IH]; intros s Hcond Hin.
  - rewrite loop_zero. cbn [repeat concat]. rewrite after_nil. reflexivity.
  - rewrite (loop_step _ s Hcond), (bind_ok _ _ _ _ _ (body_eof s Hin)).
    rewrite IH by (assumption || exact Hcond).
    rewrite after_after. reflexivity.
Qed.

(** The loop never calls the service more often than it reads lines. *)
Lemma loop_calls_bounded fuel s :
  exchanges (fst (loop fuel s)) + length (stdin (fst (loop fuel s)))
  <= exchanges s + length (stdin s).
Proof.
  revert s. induction fuel as [|fuel IH]; intros s.
  - rewrite loop_zero. reflexivity.
  - destruct (Rest.loop_cond s) eqn:Hcond.
    2: { rewrite (loop_stop _ s Hcond). reflexivity. }
    rewrite (loop_step _ s Hcond).
    destruct (stdin s) as [|l rest] eqn:Hin.
    + rewrite (bind_ok _ _ _ _ _ (body_eof s Hin)).
      etransitivity; [apply IH|]. cbn [exchanges stdin after]. rewrite Hin.
      reflexivity.
    + destruct (body_line s l rest Hin) as (s' & Hb & Hs & Hu & Hx).
      rewrite (bind_ok _ _ _ _ _ Hb).
      etransitivity; [apply IH|]. rewrite Hs. cbn [length]. lia.
Qed.

End Loop.

(** [GetLanguage] leaves the loop variable and standard input alone and
    calls the service at most once. *)
Lemma GetLanguage_bounds rt endpoint key text s :
  user_text (fst (Rest.GetLanguage rt endpoint key text s)) = user_text s
  /\ stdin (fst (Rest.GetLanguage rt endpoint key text s)) = stdin s
  /\ exchanges (fst (Rest.GetLanguage rt endpoint key text s)) <= S (exchanges s).
Proof.
  destruct (Rest.https_connection rt (Rest.uri endpoint)) as [[]|e] eqn:Hc.
  - destruct (GetLanguage_one_request rt endpoint key text s Hc) as (evs & r & -> & _).
    cbn. auto.
  - destruct (GetLanguage_no_connection rt endpoint key text s e Hc) as (msg & ->).
    cbn. auto.
Qed.

Lemma rest_loop_body_line rt endpoint key s line rest :
  stdin s = line :: rest ->
  exists s', Rest.loop_body rt endpoint key s = (s', Ok tt)
             /\ stdin s' = rest /\ user_text s' = line
             /\ exchanges s' <= S (exchanges s).
Proof.
  intros Hin. unfold Rest.loop_body.
  destruct (String.eqb_spec (lower line) "quit") as [Hq|Hq].
  { rewrite (try_ok _ _ _ _ _ (rest_loop_try_quit rt endpoint key s line rest Hin Hq)).
    eexists. split; [reflexivity|]. cbn. auto. }
  destruct (Rest.validate_text line) as [[]|e] eqn:Hv.
  - pose proof (rest_loop_try_client rt endpoint key s line rest Hin Hq Hv) as Ht.
    destruct (GetLanguage_bounds rt endpoint key line
                (after (after (consumed s line rest) [EvPrompt Rest.prompt])
                   [EvCall "validate_text" line; EvCall "GetLanguage" line]))
      as (Hu & Hs & Hx).
    destruct (snd (Rest.GetLanguage rt endpoint key line _)) as [v|e].
    + rewrite (try_ok _ _ _ _ _ Ht). eexists. split; [reflexivity|]. auto.
    + rewrite (try_raise _ _ _ _ _ Ht), rest_loop_except_prints.
      eexists. split; [reflexivity|]. cbn [stdin user_text exchanges after]. auto.
  - rewrite (try_raise _ _ _ _ _
               (rest_loop_try_invalid rt endpoint key s line rest e Hin Hq Hv)).
    rewrite rest_loop_except_prints.
    eexists. split; [reflexivity|]. cbn. auto.
Qed.

Lemma rest_loop_body_eof rt endpoint key s :
  stdin s = [] ->
  Rest.loop_body rt endpoint key s
  = (after s [EvPrompt Rest.prompt;
              EvPrint "Unexpected error: EOF when reading a line"], Ok tt).
Proof.
  intros Hin. unfold Rest.loop_body.
  rewrite (try_raise _ _ _ _ _ (rest_loop_try_eof rt endpoint key s Hin)).
  rewrite rest_loop_except_prints, after_after. reflexivity.
Qed.

Lemma sdk_loop_body_line rt detector s line rest :
  stdin s = line :: rest ->
  exists s', Sdk.loop_body rt detector s = (s', Ok tt)
             /\ stdin s' = rest /\ user_text s' = line
             /\ exchanges s' <= S (exchanges s).
Proof.
  intros Hin. unfold Sdk.loop_body.
  destruct (String.eqb_spec (lower line) "quit") as [Hq|Hq].
  { rewrite (try_ok _ _ _ _ _ (sdk_loop_try_quit rt detector s line rest Hin Hq)).
    eexists. split; [reflexivity|]. cbn. auto. }
  destruct (Sdk.TextValidator.validate line) as [[]|e] eqn:Hv.
  - pose proof (sdk_loop_try_client rt detector s line rest Hin Hq Hv) as Ht.
    destruct (snd (Sdk.detect_language rt detector line _)) as [v|e].
    + rewrite (try_ok _ _ _ _ _ Ht). eexists. split; [reflexivity|]. cbn. auto.
    + rewrite (try_raise _ _ _ _ _ Ht), sdk_loop_except_prints.
      eexists. split; [reflexivity|]. cbn. auto.
  - rewrite (try_raise _ _ _ _ _
               (sdk_loop_try_invalid rt detector s line rest e Hin Hq Hv)).
    rewrite sdk_loop_except_prints.
    eexists. split; [reflexivity|]. cbn. auto.
Qed.

Lemma sdk_loop_body_eof rt detector s :
  stdin s = [] ->
  Sdk.loop_body rt detector s
  = (after s [EvPrompt Sdk.prompt;
              EvPrint "Unexpected error: EOF when reading a line"], Ok tt).
Proof.
  intros Hin. unfold Sdk.loop_body.
  rewrite (try_raise _ _ _ _ _ (sdk_loop_try_eof rt detector s Hin)).
  rewrite sdk_loop_except_prints, after_after. reflexivity.
Qed.

(** With a configuration that loads, [main] is its loop, started with
    an empty loop variable. *)
Lemma rest_main_runs_loop rt environ fuel s e k :
  Rest.validate_configuration environ = Ok (e, k) ->
  Rest.main rt environ fuel s
  = Rest.while_loop rt e k fuel (State "" (stdin s) (trace s) (exchanges s)).
Proof.
  intros H. unfold Rest.main, try_except.
  unfold bind at 1, lift. rewrite H.
  unfold bind at 1, set_user_text. cbn [fst snd].
  destruct (rest_while_loop_ok rt e k fuel
              (State "" (stdin s) (trace s) (exchanges s))) as (s' & r & ->).
  reflexivity.
Qed.

Lemma sdk_main_runs_loop rt environ fuel s e k :
  Rest.validate_configuration environ = Ok (e, k) ->
  Sdk.main rt environ fuel s
  = Sdk.while_loop rt (Sdk.init (Sdk.MkConfig e k)) fuel
      (State "" (stdin s) (trace s) (exchanges s)).
Proof.
  intros H. unfold Sdk.main, try_except.
  unfold bind at 1, lift. rewrite from_env_validate_configuration, H.
  unfold bind at 1, set_user_text. cbn [fst snd].
  destruct (sdk_while_loop_ok rt (Sdk.init (Sdk.MkConfig e k)) fuel
              (State "" (stdin s) (trace s) (exchanges s))) as (s' & r & ->).
  reflexivity.
Qed.

(** X11: with a configuration that loads, both scripts return normally
    at the first line of standard input whose lowered value is the word
    quit, once given as many passes as there are lines before it plus
    two; the lines after it are left unread. *)
Theorem main_returns_at_first_sentinel
    (rest_rt : Rest.runtime) (sdk_rt : Sdk.runtime)
    (environ : gmap string string) (e k : string) (s : state)
    (pre : list string) (line : string) (rest : list string) (n : nat) :
  Rest.validate_configuration environ = Ok (e, k) ->
  Forall (fun l => lower l <> "quit") pre ->
  lower line = "quit" ->
  stdin s = (pre ++ line :: rest)%list ->
  (exists s', Rest.main rest_rt environ (length pre + 2 + n) s = (s', Ok (Some tt))
              /\ stdin s' = rest /\ user_text s' = line)
  /\ (exists s', Sdk.main sdk_rt environ (length pre + 2 + n) s = (s', Ok (Some tt))
                 /\ stdin s' = rest /\ user_text s' = line).
Proof.
  intros Hcfg Hpre Hq Hin. split.
  - rewrite (rest_main_runs_loop rest_rt environ _ s e k Hcfg).
    apply (loop_reaches_sentinel (Rest.loop_body rest_rt e k)
             (Rest.while_loop rest_rt e k)
             (rest_while_loop_step rest_rt e k) (rest_while_loop_stop rest_rt e k)
             (rest_loop_body_line rest_rt e k)); auto.
  - rewrite (sdk_main_runs_loop sdk_rt environ _ s e k Hcfg).
    apply (loop_reaches_sentinel (Sdk.loop_body sdk_rt _) (Sdk.while_loop sdk_rt _)
             (sdk_while_loop_step sdk_rt _) (sdk_while_loop_stop sdk_rt _)
             (sdk_loop_body_line sdk_rt _)); auto.
Qed.

(** X11 at the lines Hello, quit and a third line that stays unread. *)
Lemma main_returns_at_first_sentinel_witness :
  (exists s', Rest.main Scenario.rt_english Scenario.environ_ok 3
                (Scenario.initial ["Hello"; "quit"; "unread"]) = (s', Ok (Some tt))
              /\ stdin s' = ["unread"] /\ user_text s' = "quit")
  /\ (exists s', Sdk.main Scenario.sdk_english Scenario.environ_ok 3
                   (Scenario.initial ["Hello"; "quit"; "unread"]) = (s', Ok (Some tt))
                 /\ stdin s' = ["unread"] /\ user_text s' = "quit").
Proof.
  apply (main_returns_at_first_sentinel Scenario.rt_english Scenario.sdk_english
           Scenario.environ_ok "https://test-endpoint.com" "test-key"
           (Scenario.initial ["Hello"; "quit"; "unread"])
           ["Hello"] "quit" ["unread"] 0).
  - vm_compute. reflexivity.
  - constructor; [vm_compute; discriminate | constructor].
  - reflexivity.
  - reflexivity.
Defined.

(** X12: with a configuration that loads and a standard input that
    holds no line whose lowered value is the word quit, neither script
    ever returns or raises: however many passes the loop is given, it
    is still running.  The end of standard input does not end it. *)
Theorem main_runs_on_without_sentinel
    (rest_rt : Rest.runtime) (sdk_rt : Sdk.runtime)
    (environ : gmap string string) (e k : string) (s : state) (fuel : nat) :
  Rest.validate_configuration environ = Ok (e, k) ->
  Forall (fun l => lower l <> "quit") (stdin s) ->
  snd (Rest.main rest_rt environ fuel s) = Ok None
  /\ snd (Sdk.main sdk_rt environ fuel s) = Ok None.
Proof.
  intros Hcfg Hall. split.
  - rewrite (rest_main_runs_loop rest_rt environ _ s e k Hcfg).
    destruct (loop_needs_sentinel (Rest.loop_body rest_rt e k)
                (Rest.while_loop rest_rt e k) Rest.prompt
                (fun _ => eq_refl)
                (rest_while_loop_step rest_rt e k)
                (rest_loop_body_line rest_rt e k) (rest_loop_body_eof rest_rt e k)
                fuel (State "" (stdin s) (trace s) (exchanges s)) eq_refl Hall)
      as (s' & ->).
    reflexivity.
  - rewrite (sdk_main_runs_loop sdk_rt environ _ s e k Hcfg).
    destruct (loop_needs_sentinel (Sdk.loop_body sdk_rt (Sdk.init (Sdk.MkConfig e k)))
                (Sdk.while_loop sdk_rt (Sdk.init (Sdk.MkConfig e k))) Sdk.prompt
                (fun _ => eq_refl)
                (sdk_while_loop_step sdk_rt (Sdk.init (Sdk.MkConfig e k)))
                (sdk_loop_body_line sdk_rt (Sdk.init (Sdk.MkConfig e k))) (sdk_loop_body_eof sdk_rt (Sdk.init (Sdk.MkConfig e k)))
                fuel (State "" (stdin s) (trace s) (exchanges s)) eq_refl Hall)
      as (s' & ->).
    reflexivity.
Qed.

(** X12 at a standard input that holds the one line Hello, and ten
    passes. *)
Lemma main_runs_on_without_sentinel_witness :
  snd (Rest.main Scenario.rt_english Scenario.environ_ok 10
         (Scenario.initial ["Hello"])) = Ok None
  /\ snd (Sdk.main Scenario.sdk_english Scenario.environ_ok 10
            (Scenario.initial ["Hello"])) = Ok None.
Proof.
  apply (main_runs_on_without_sentinel Scenario.rt_english Scenario.sdk_english
           Scenario.environ_ok "https://test-endpoint.com" "test-key"
           (Scenario.initial ["Hello"]) 10).
  - vm_compute. reflexivity.
  - constructor; [vm_compute; discriminate | constructor].
Defined.

(** X13: with a configuration that loads and an empty standard input,
    each pass of either script writes the prompt and prints Unexpected
    error: EOF when reading a line, and nothing else happens: no call
    of the validator, none of the service. *)
Theorem end_of_input_is_printed_forever
    (rest_rt : Rest.runtime) (sdk_rt : Sdk.runtime)
    (environ : gmap string string) (e k : string) (s : state) (fuel : nat) :
  Rest.validate_configuration environ = Ok (e, k) ->
  stdin s = [] ->
  Rest.main rest_rt environ fuel s
  = (State "" [] (trace s
                    ++ concat (repeat [EvPrompt Rest.prompt;
                                       EvPrint "Unexpected error: EOF when reading a line"]
                                 fuel))%list (exchanges s),
     Ok None)
  /\ Sdk.main sdk_rt environ fuel s
     = (State "" [] (trace s
                       ++ concat (repeat [EvPrompt Sdk.prompt;
                                          EvPrint "Unexpected error: EOF when reading a line"]
                                    fuel))%list (exchanges s),
        Ok None).
Proof.
  intros Hcfg Hin. split.
  - rewrite (rest_main_runs_loop rest_rt environ _ s e k Hcfg).
    rewrite (loop_at_eof (Rest.loop_body rest_rt e k)
               (Rest.while_loop rest_rt e k) Rest.prompt
               (fun _ => eq_refl) (rest_while_loop_step rest_rt e k)
               (rest_loop_body_eof rest_rt e k) fuel
               (State "" (stdin s) (trace s) (exchanges s)) eq_refl Hin).
    unfold after. cbn. rewrite Hin. reflexivity.
  - rewrite (sdk_main_runs_loop sdk_rt environ _ s e k Hcfg).
    rewrite (loop_at_eof (Sdk.loop_body sdk_rt (Sdk.init (Sdk.MkConfig e k)))
               (Sdk.while_loop sdk_rt (Sdk.init (Sdk.MkConfig e k))) Sdk.prompt
               (fun _ => eq_refl) (sdk_while_loop_step sdk_rt (Sdk.init (Sdk.MkConfig e k)))
               (sdk_loop_body_eof sdk_rt (Sdk.init (Sdk.MkConfig e k))) fuel
               (State "" (stdin s) (trace s) (exchanges s)) eq_refl Hin).
    unfold after. cbn. rewrite Hin. reflexivity.
Qed.

(** X13 at an empty standard input and two passes. *)
Lemma end_of_input_is_printed_forever_witness :
  Rest.main Scenario.rt_english Scenario.environ_ok 2 (Scenario.initial [])
  = (State "" [] ([] ++ concat (repeat [EvPrompt Rest.prompt;
                                        EvPrint "Unexpected error: EOF when reading a line"]
                                  2))%list 0,
     Ok None)
  /\ Sdk.main Scenario.sdk_english Scenario.environ_ok 2 (Scenario.initial [])
     = (State "" [] ([] ++ concat (repeat [EvPrompt Sdk.prompt;
                                           EvPrint "Unexpected error: EOF when reading a line"]
                                     2))%list 0,
        Ok None).
Proof.
  apply (end_of_input_is_printed_forever Scenario.rt_english Scenario.sdk_english
           Scenario.environ_ok "https://test-endpoint.com" "test-key"
           (Scenario.initial []) 2).
  - vm_compute. reflexivity.
  - reflexivity.
Defined.

(** X14: neither script ever calls the remote service more often than
    it reads lines from standard input: after any number of passes, the
    calls made plus the lines still unread are at most the calls made
    before plus the lines that were unread then. *)
Theorem service_calls_bounded_by_lines
    (rest_rt : Rest.runtime) (sdk_rt : Sdk.runtime)
    (environ : gmap string string) (s : state) (fuel : nat) :
  exchanges (fst (Rest.main rest_rt environ fuel s))
    + length (stdin (fst (Rest.main rest_rt environ fuel s)))
  <= exchanges s + length (stdin s)
  /\ exchanges (fst (Sdk.main sdk_rt environ fuel s))
       + length (stdin (fst (Sdk.main sdk_rt environ fuel s)))
     <= exchanges s + length (stdin s).
Proof.
  destruct (Rest.validate_configuration environ) as [[e k]|x] eqn:Hcfg.
  - rewrite (rest_main_runs_loop rest_rt environ _ s e k Hcfg),
      (sdk_main_runs_loop sdk_rt environ _ s e k Hcfg).
    split.
    + apply (loop_calls_bounded (Rest.loop_body rest_rt e k)
               (Rest.while_loop rest_rt e k) Rest.prompt
               (fun _ => eq_refl) (rest_while_loop_step rest_rt e k)
               (rest_while_loop_stop rest_rt e k)
               (rest_loop_body_line rest_rt e k) (rest_loop_body_eof rest_rt e k)
               fuel (State "" (stdin s) (trace s) (exchanges s))).
    + apply (loop_calls_bounded (Sdk.loop_body sdk_rt (Sdk.init (Sdk.MkConfig e k)))
               (Sdk.while_loop sdk_rt (Sdk.init (Sdk.MkConfig e k))) Sdk.prompt
               (fun _ => eq_refl) (sdk_while_loop_step sdk_rt (Sdk.init (Sdk.MkConfig e k)))
               (sdk_while_loop_stop sdk_rt (Sdk.init (Sdk.MkConfig e k)))
               (sdk_loop_body_line sdk_rt (Sdk.init (Sdk.MkConfig e k))) (sdk_loop_body_eof sdk_rt (Sdk.init (Sdk.MkConfig e k)))
               fuel (State "" (stdin s) (trace s) (exchanges s))).
  - rewrite (rest_main_configuration_error rest_rt environ fuel s x Hcfg).
    rewrite (sdk_main_configuration_error sdk_rt environ fuel s x).
    + cbn. split; reflexivity.
    + rewrite from_env_validate_configuration, Hcfg. reflexivity.
Qed.

(** ** One pass of the loop, case by case *)

(** X15: a line that is not the sentinel and that the validator accepts
    is sent to the service once.  In sdk-client.py, when the first item
    of the returned list is a result, the pass prints Language: and the
    name of its primary language.  In rest-client.py, on a 200 response
    whose documents all carry a name, the pass echoes the request and
    the response, prints each name and closes the connection.  Either
    way the pass ends normally. *)
Theorem valid_line_is_answered :
  (forall (rt : Sdk.runtime) (detector : Sdk.LanguageDetector) (s : state)
          (line : string) (rest : list string)
          (p : Sdk.DetectedLanguage) (more : list Sdk.document_result),
     stdin s = line :: rest -> lower line <> "quit" ->
     Sdk.TextValidator.validate line = Ok tt ->
     Sdk.client_detect_language rt (exchanges s) (Sdk.client detector) [line]
       = Ok (Sdk.DetectLanguageResult p :: more) ->
     Sdk.loop_body rt detector s
     = (exchanged
          (after (consumed s line rest)
             [EvPrompt Sdk.prompt;
              EvCall "TextValidator.validate" line;
              EvCall "detect_language" line;
              EvSdkCall [line];
              EvPrint ("Language: " +:+ Sdk.name p)]),
        Ok tt))
  /\ (forall (rt : Rest.runtime) (endpoint key : string) (s : state)
             (line : string) (rest : list string)
             (resp : response) (results : pyval) (docs names : list pyval),
        stdin s = line :: rest -> lower line <> "quit" ->
        Rest.validate_text line = Ok tt ->
        Rest.https_connection rt (Rest.uri endpoint) = Ok tt ->
        Rest.http_exchange rt (exchanges s) (Rest.language_request endpoint key line)
          = Ok resp ->
        status resp = 200%Z ->
        Rest.json_loads rt (data resp) = Ok results ->
        getitem results "documents" = Ok (PList docs) ->
        Forall2 (fun doc nm => Rest.language_name doc = Ok nm) docs names ->
        Rest.loop_body rt endpoint key s
        = (exchanged
             (after (consumed s line rest)
                ([EvPrompt Rest.prompt;
                  EvCall "validate_text" line;
                  EvCall "GetLanguage" line;
                  EvPrintJson (Rest.jsonBody line);
                  EvRequest (Rest.language_request endpoint key line);
                  EvPrintJson results]
                   ++ map (fun nm => EvPrint (newline +:+ "Language: " +:+ str nm))
                        names
                   ++ [EvClose])),
           Ok tt)).
Proof.
  split.
  - intros rt detector s line rest p more Hin Hq Hv Hc.
    unfold Sdk.loop_body. apply try_ok.
    rewrite (sdk_loop_try_client rt detector s line rest Hin Hq Hv).
    rewrite (detect_language_first rt detector line
               (after (after (consumed s line rest) [EvPrompt Sdk.prompt])
                  [EvCall "TextValidator.validate" line;
                   EvCall "detect_language" line]) p more Hc).
    cbn [snd]. unfold after, exchanged, consumed. cbn.
    rewrite <- !app_assoc. reflexivity.
  - intros rt endpoint key s line rest resp results docs names
           Hin Hq Hv Hc Hx Hst Hj Hd Hn.
    unfold Rest.loop_body. apply try_ok.
    rewrite (rest_loop_try_client rt endpoint key s line rest Hin Hq Hv).
    rewrite (GetLanguage_success rt endpoint key line
               (after (after (consumed s line rest) [EvPrompt Rest.prompt])
                  [EvCall "validate_text" line; EvCall "GetLanguage" line])
               resp results docs names Hc Hx Hst Hj Hd Hn).
    cbn [fst snd]. unfold after, exchanged, consumed, Rest.sent. cbn.
    rewrite <- !app_assoc. reflexivity.
Qed.

(** X15 at the line Hello and the replies of the unit tests. *)
Lemma valid_line_is_answered_witness :
  Sdk.loop_body Scenario.sdk_english Scenario.detector_ok
    (Scenario.initial ["Hello"])
  = (exchanged
       (after (consumed (Scenario.initial ["Hello"]) "Hello" [])
          [EvPrompt Sdk.prompt;
           EvCall "TextValidator.validate" "Hello";
           EvCall "detect_language" "Hello";
           EvSdkCall ["Hello"];
           EvPrint ("Language: " +:+ "English")]),
     Ok tt).
Proof.
  apply (proj1 valid_line_is_answered Scenario.sdk_english Scenario.detector_ok
           (Scenario.initial ["Hello"]) "Hello" []
           (Sdk.MkDetectedLanguage "English" "en") []).
  - reflexivity.
  - vm_compute. discriminate.
  - vm_compute. reflexivity.
  - reflexivity.
Defined.

(** X16: when the SDK call raises an [AzureError], [detect_language]
    raises a new [AzureError] whose text is Failed to detect language:
    followed by the text of the first one, and the loop prints it after
    Azure service error: and goes on to the next pass; an exception of
    any other class leaves [detect_language] unchanged. *)
Theorem azure_error_is_wrapped_and_printed :
  (forall (rt : Sdk.runtime) (self : Sdk.LanguageDetector) (text : string)
          (s : state) (e : exn),
     Sdk.client_detect_language rt (exchanges s) (Sdk.client self) [text] = Raise e ->
     snd (Sdk.detect_language rt self text s)
     = if match exn_cls e with AzureError => true | _ => false end
       then Raise (Exn AzureError ("Failed to detect language: " +:+ exn_str e))
       else Raise e)
  /\ (forall (rt : Sdk.runtime) (detector : Sdk.LanguageDetector) (s : state)
             (line : string) (rest : list string) (e : exn),
        stdin s = line :: rest -> lower line <> "quit" ->
        Sdk.TextValidator.validate line = Ok tt ->
        Sdk.client_detect_language rt (exchanges s) (Sdk.client detector) [line]
          = Raise e ->
        exn_cls e = AzureError ->
        Sdk.loop_body rt detector s
        = (exchanged
             (after (consumed s line rest)
                [EvPrompt Sdk.prompt;
                 EvCall "TextValidator.validate" line;
                 EvCall "detect_language" line;
                 EvSdkCall [line];
                 EvPrint ("Azure service error: "
                            +:+ "Failed to detect language: " +:+ exn_str e)]),
           Ok tt)).
Proof.
  assert (Hdetect : forall rt self text s e,
            Sdk.client_detect_language rt (exchanges s) (Sdk.client self) [text]
              = Raise e ->
            snd (Sdk.detect_language rt self text s)
            = if match exn_cls e with AzureError => true | _ => false end
              then Raise (Exn AzureError ("Failed to detect language: " +:+ exn_str e))
              else Raise e).
  { intros rt self text s e H. unfold Sdk.detect_language, try_except.
    unfold bind at 1. rewrite exchange_after, H.
    destruct (exn_cls e); reflexivity. }
  split; [exact Hdetect|].
  intros rt detector s line rest e Hin Hq Hv Hc Hcls.
  unfold Sdk.loop_body.
  pose proof (sdk_loop_try_client rt detector s line rest Hin Hq Hv) as Ht.
  rewrite (Hdetect rt detector line
             (after (after (consumed s line rest) [EvPrompt Sdk.prompt])
                [EvCall "TextValidator.validate" line;
                 EvCall "detect_language" line]) e Hc) in Ht.
  rewrite Hcls in Ht.
  rewrite (try_raise _ _ _ _ _ Ht), sdk_loop_except_prints.
  unfold after, exchanged, consumed. cbn.
  rewrite <- !app_assoc. reflexivity.
Qed.

(** X16 at the line Hello and an SDK call that is refused. *)
Lemma azure_error_is_wrapped_and_printed_witness :
  Sdk.loop_body
    (Sdk.Runtime (fun _ _ _ => Raise (Exn AzureError "Access denied")))
    Scenario.detector_ok (Scenario.initial ["Hello"])
  = (exchanged
       (after (consumed (Scenario.initial ["Hello"]) "Hello" [])
          [EvPrompt Sdk.prompt;
           EvCall "TextValidator.validate" "Hello";
           EvCall "detect_language" "Hello";
           EvSdkCall ["Hello"];
           EvPrint ("Azure service error: "
                      +:+ "Failed to detect language: " +:+ "Access denied")]),
     Ok tt).
Proof.
  apply (proj2 azure_error_is_wrapped_and_printed
           (Sdk.Runtime (fun _ _ _ => Raise (Exn AzureError "Access denied")))
           Scenario.detector_ok (Scenario.initial ["Hello"]) "Hello" []
           (Exn AzureError "Access denied")).
  - reflexivity.
  - vm_compute. discriminate.
  - vm_compute. reflexivity.
  - reflexivity.
  - reflexivity.
Defined.

(** X17: a line that the validator rejects never reaches the remote
    service: in both scripts the pass writes the prompt, prints the
    validator's message after Input error: and ends normally, with no
    request made and the count of service calls unchanged. *)
Theorem rejected_line_is_not_sent
    (rest_rt : Rest.runtime) (endpoint key : string)
    (sdk_rt : Sdk.runtime) (detector : Sdk.LanguageDetector)
    (s : state) (line : string) (rest : list string) (e : exn) :
  stdin s = line :: rest ->
  lower line <> "quit" ->
  Rest.validate_text line = Raise e ->
  Rest.loop_body rest_rt endpoint key s
  = (after (consumed s line rest)
       [EvPrompt Rest.prompt; EvCall "validate_text" line;
        EvPrint ("Input error: " +:+ exn_str e)],
     Ok tt)
  /\ Sdk.loop_body sdk_rt detector s
     = (after (consumed s line rest)
          [EvPrompt Sdk.prompt; EvCall "TextValidator.validate" line;
           EvPrint ("Input error: " +:+ exn_str e)],
        Ok tt)
  /\ exchanges (fst (Rest.loop_body rest_rt endpoint key s)) = exchanges s
  /\ exchanges (fst (Sdk.loop_body sdk_rt detector s)) = exchanges s.
Proof.
  intros Hin Hq Hv.
  assert (Hv' : Sdk.TextValidator.validate line = Raise e).
  { etransitivity; [apply validate_variants_agree | exact Hv]. }
  assert (Hr : Rest.loop_body rest_rt endpoint key s
               = (after (consumed s line rest)
                    [EvPrompt Rest.prompt; EvCall "validate_text" line;
                     EvPrint ("Input error: " +:+ exn_str e)], Ok tt)).
  { unfold Rest.loop_body.
    rewrite (try_raise _ _ _ _ _
               (rest_loop_try_invalid rest_rt endpoint key s line rest e Hin Hq Hv)).
    rewrite rest_loop_except_prints, (validate_text_raises line e Hv), !after_after.
    reflexivity. }
  assert (Hs : Sdk.loop_body sdk_rt detector s
               = (after (consumed s line rest)
                    [EvPrompt Sdk.prompt; EvCall "TextValidator.validate" line;
                     EvPrint ("Input error: " +:+ exn_str e)], Ok tt)).
  { unfold Sdk.loop_body.
    rewrite (try_raise _ _ _ _ _
               (sdk_loop_try_invalid sdk_rt detector s line rest e Hin Hq Hv')).
    rewrite sdk_loop_except_prints, (validate_text_raises line e Hv), !after_after.
    reflexivity. }
  rewrite Hr, Hs. repeat split; reflexivity.
Qed.

(** X17 at a line of one blank. *)
Lemma rejected_line_is_not_sent_witness :
  Rest.loop_body Scenario.rt_english "https://test-endpoint.com" "test-key"
    (Scenario.initial [" "])
  = (after (consumed (Scenario.initial [" "]) " " [])
       [EvPrompt Rest.prompt; EvCall "validate_text" " ";
        EvPrint ("Input error: " +:+ "Text cannot be empty")],
     Ok tt)
  /\ Sdk.loop_body Scenario.sdk_english Scenario.detector_ok
       (Scenario.initial [" "])
     = (after (consumed (Scenario.initial [" "]) " " [])
          [EvPrompt Sdk.prompt; EvCall "TextValidator.validate" " ";
           EvPrint ("Input error: " +:+ "Text cannot be empty")],
        Ok tt)
  /\ exchanges (fst (Rest.loop_body Scenario.rt_english
                       "https://test-endpoint.com" "test-key"
                       (Scenario.initial [" "]))) = 0
  /\ exchanges (fst (Sdk.loop_body Scenario.sdk_english Scenario.detector_ok
                       (Scenario.initial [" "]))) = 0.
Proof.
  apply (rejected_line_is_not_sent Scenario.rt_english
           "https://test-endpoint.com" "test-key"
           Scenario.sdk_english Scenario.detector_ok
           (Scenario.initial [" "]) " " []
           (Exn InputError "Text cannot be empty")).
  - reflexivity.
  - vm_compute. discriminate.
  - vm_compute. reflexivity.
Defined.

(** * The response as the connection hands it over *)

(** Decoding what was encoded gives the text back. *)
Lemma decode_encode_utf8 s pos :
  decode_utf8_from pos (encode_utf8 s) = Some (Ok s).
Proof.
  revert pos. induction s as [|c s IH]; intros pos; [reflexivity|].
  cbn [encode_utf8].
  pose proof (N_ascii_bounded c) as Hb.
  pose proof (ascii_N_embedding c) as Hc.
  set (n := N_of_ascii c) in *.
  destruct (N.ltb_spec n 128) as [Hlt|Hge].
  - cbn [decode_utf8_from].
    destruct (N.ltb_spec n 128) as [_|?]; [|lia].
    rewrite IH, Hc. reflexivity.
  - pose proof (N.div_mod n 64 ltac:(lia)) as Hdm.
    pose proof (N.mod_lt n 64 ltac:(lia)) as Hm.
    set (q := (n / 64)%N) in *. set (m := (n mod 64)%N) in *.
    assert (Hq : (q = 2 \/ q = 3)%N) by lia.
    cbn [decode_utf8_from].
    destruct (N.ltb_spec (192 + q) 128) as [?|_]; [lia|].
    destruct (N.ltb_spec (192 + q) 194) as [?|_]; [lia|].
    destruct (N.ltb_spec 244 (192 + q)) as [?|_]; [lia|].
    cbn [orb].
    destruct (N.leb_spec (192 + q) 195) as [_|?]; [|lia].
    destruct (N.leb_spec 128 (128 + m)) as [_|?]; [|lia].
    destruct (N.leb_spec (128 + m) 191) as [_|?]; [|lia].
    cbn [andb]. rewrite IH.
    replace ((192 + q - 192) * 64 + (128 + m - 128))%N with n by lia.
    rewrite Hc. reflexivity.
Qed.

Lemma prefix_append sub post : String.prefix sub (sub +:+ post) = true.
Proof.
  induction sub as [|a sub IH].
  - destruct post; reflexivity.
  - rewrite append_cons. cbn [String.prefix].
    destruct (ascii_dec a a) as [_|H]; [exact IH | contradiction].
Qed.

(** What occurs in a text is found by [contains]. *)
Lemma occurs_in_contains sub s : Spec.occurs_in sub s -> contains sub s = true.
Proof.
  intros (pre & post & ->). induction pre as [|c pre IH].
  - change ("" +:+ sub +:+ post) with (sub +:+ post).
    destruct (sub +:+ post) eqn:E; cbn [contains];
      rewrite <- E, prefix_append; reflexivity.
  - rewrite append_cons. cbn [contains]. rewrite IH. apply orb_true_r.
Qed.

(** C4, as stated, fails: a response with status 400 whose body is the
    byte 0xFF cannot be decoded, and the body is decoded before the
    status is looked at; the [APIError] that [GetLanguage] raises then
    holds the decoding error and not the status code. *)
Lemma undecodable_body_counterexample :
  Rest.raw_status Scenario.undecodable = 400%Z
  /\ decode_utf8 (Rest.raw_body Scenario.undecodable)
     = Some (Raise Scenario.undecodable_error)
  /\ Rest.read_response Scenario.undecodable
     = Some (Rest.http_exchange Scenario.rt_undecodable 0
               (Rest.language_request "https://test-endpoint.com" "test-key" "Hello"))
  /\ snd (Rest.GetLanguage Scenario.rt_undecodable
            "https://test-endpoint.com" "test-key" "Hello" (Scenario.initial []))
     = Raise (Exn APIError
                ("Unexpected error during API call: "
                   +:+ "'utf-8' codec can't decode byte 0xff in position 0: "
                   +:+ "invalid start byte"))
  /\ ~ Spec.occurs_in "400"
         ("Unexpected error during API call: "
            +:+ "'utf-8' codec can't decode byte 0xff in position 0: "
            +:+ "invalid start byte").
Proof.
  split; [reflexivity|].
  split; [vm_compute; reflexivity|].
  split; [vm_compute; reflexivity|].
  split; [vm_compute; reflexivity|].
  intros H. apply occurs_in_contains in H. vm_compute in H. discriminate H.
Qed.

(** C4, amended: on a response whose status is not 200 the raw-HTTP
    client raises an [APIError]; when the body of the response decodes
    as UTF-8, the text of that error holds the status code and the
    decoded body. *)
Theorem non_200_is_api_error
    (rt : Rest.runtime) (endpoint key text : string) (s : state)
    (raw : Rest.raw_response) :
  Rest.https_connection rt (Rest.uri endpoint) = Ok tt ->
  Rest.read_response raw
    = Some (Rest.http_exchange rt (exchanges s)
              (Rest.language_request endpoint key text)) ->
  Rest.raw_status raw <> 200%Z ->
  (exists msg,
     snd (Rest.GetLanguage rt endpoint key text s) = Raise (Exn APIError msg))
  /\ (forall d,
        decode_utf8 (Rest.raw_body raw) = Some (Ok d) ->
        exists msg,
          snd (Rest.GetLanguage rt endpoint key text s) = Raise (Exn APIError msg)
          /\ Spec.occurs_in (str_of_int (Rest.raw_status raw)) msg
          /\ Spec.occurs_in d msg).
Proof.
  intros Hc Hr Hst. unfold Rest.read_response in Hr.
  destruct (decode_utf8 (Rest.raw_body raw)) as [[d|e]|]; [| |discriminate].
  - injection Hr as Hx. symmetry in Hx.
    rewrite (GetLanguage_failure rt endpoint key text s _ Hc Hx Hst).
    cbn [snd status data]. split; [eauto|].
    intros d' [= <-]. eexists. split; [reflexivity|]. split.
    + apply occurs_in_append, occurs_in_append, occurs_in_middle with (pre := "").
    + do 4 apply occurs_in_append. apply occurs_in_end with (pre := "").
  - injection Hr as Hx. symmetry in Hx.
    rewrite (GetLanguage_exchange_raises rt endpoint key text s e Hc Hx).
    split; [eauto | discriminate].
Qed.

(** The amended C4 at the error response of the unit tests: status 400,
    body Error message. *)
Lemma non_200_is_api_error_witness :
  exists msg,
    snd (Rest.GetLanguage Scenario.rt_bad_request
           "https://test-endpoint.com" "test-key" "Hello" (Scenario.initial []))
      = Raise (Exn APIError msg)
    /\ Spec.occurs_in "400" msg
    /\ Spec.occurs_in "Error message" msg.
Proof.
  apply (proj2 (non_200_is_api_error Scenario.rt_bad_request
                  "https://test-endpoint.com" "test-key" "Hello"
                  (Scenario.initial [])
                  (Rest.RawResponse 400 (encode_utf8 "Error message"))
                  eq_refl eq_refl ltac:(discriminate))).
  vm_compute. reflexivity.
Defined.
